(** * Works Mobile upload clients: [send_image.py] and [send_video.py]

    A shallow embedding of the two upload pipelines (path issuance, preflight,
    multipart upload, orchestration in [main]) and of the media inspection
    ([_get_mp4_duration], [ImageUploader.dimensions]).

    Conventions.
    - Python [bytes] is [list byte]; Python [str] is a Rocq [string] holding
      the UTF-8 encoding of the text, so [s.encode("utf-8")] is
      [list_byte_of_string s] and a character is ASCII iff its byte is < 128.
    - Exceptions are explicit: pure fallible code returns [result], code that
      talks to the network runs in the monad [M], whose state is the trace of
      network calls issued so far.
    - The network, the clock, the file system and PIL are parameters: a
      [world] gives the response to each request, the time, the file content
      and the size PIL reports for a payload.
    - [logger] calls do not influence control flow and are not modelled.
    - [duration / time_scale] is a Python float: the IEEE double nearest to
      the quotient. The model keeps the exact quotient as a reduced [Q]; the
      float is zero exactly when the quotient is (both operands are below
      2^32), and 5/2 is the float 2.5. *)

From Stdlib Require Import List String Ascii NArith ZArith Lia Bool QArith.
From Stdlib Require Import DecimalString DecimalPos DecimalZ.
From Stdlib.Strings Require Import Byte.
Import ListNotations.
Local Open Scope Z_scope.
Set Warnings "-register-all".

(** ** Python values and exceptions *)

Definition bytes := list byte.

(** [file_data: Union[bytes, str]]. *)
Inductive file_input :=
| FBytes (b : bytes)
| FStr (s : string).

(** The exception classes that occur. [binascii.Error] is a subclass of
    [ValueError]; [requests.exceptions.JSONDecodeError] is a subclass of both
    [ValueError] and [RequestException]. *)
Inductive exn :=
| ValueError
| binascii_Error
| struct_error
| ZeroDivisionError
| KeyError
| AttributeError
| RequestException
| JSONDecodeError.

Definition is_ValueError (e : exn) : bool :=
  match e with
  | ValueError | binascii_Error | JSONDecodeError => true
  | _ => false
  end.

Definition is_RequestException (e : exn) : bool :=
  match e with
  | RequestException | JSONDecodeError => true
  | _ => false
  end.

(** [except Exception] catches every class above. *)
Definition is_Exception (_ : exn) : bool := true.

Inductive result (A : Type) :=
| Ok (a : A)
| Raise (e : exn).
Arguments Ok {A} a.
Arguments Raise {A} e.

Definition rbind {A B} (r : result A) (k : A -> result B) : result B :=
  match r with
  | Ok a => k a
  | Raise e => Raise e
  end.

Definition rmap {A B} (f : A -> B) (r : result A) : result B :=
  rbind r (fun a => Ok (f a)).

(** [try: body except cls: handler] on pure code. *)
Definition rtry {A} (body : result A) (cls : exn -> bool) (handler : exn -> result A)
  : result A :=
  match body with
  | Ok a => Ok a
  | Raise e => if cls e then handler e else Raise e
  end.

Declare Scope result_scope.
Delimit Scope result_scope with result.
Notation "x <- c ;; k" := (rbind c (fun x => k))
  (at level 61, c at next level, right associativity) : result_scope.

(** JSON values as [json.loads] and [json.dumps] exchange them; an object is an
    association list in insertion order, as a Python dict is. *)
Inductive json :=
| JNull
| JBool (b : bool)
| JInt (n : Z)
| JFloat (q : Q)
| JStr (s : string)
| JObj (fields : list (string * json)).

(** [str(n)] for an int. *)
Definition py_str_int (n : Z) : string := NilZero.string_of_int (Z.to_int n).

(** [len(b)]. *)
Definition py_len {A} (l : list A) : Z := Z.of_nat (List.length l).

(** [b[i:j]] for [0 <= i]: the elements at positions [i .. j-1] that exist. *)
Definition py_slice {A} (l : list A) (i j : Z) : list A :=
  firstn (Z.to_nat (j - i)) (skipn (Z.to_nat i) l).

(** ** dict as an insertion-ordered association list *)

Fixpoint dict_set {V} (k : string) (v : V) (d : list (string * V)) : list (string * V) :=
  match d with
  | [] => [(k, v)]
  | (k', v') :: d' =>
      if String.eqb k k' then (k, v) :: d' else (k', v') :: dict_set k v d'
  end.

Definition dict_update {V} (d upd : list (string * V)) : list (string * V) :=
  fold_left (fun acc kv => dict_set (fst kv) (snd kv) acc) upd d.

Fixpoint dict_get {V} (k : string) (d : list (string * V)) : option V :=
  match d with
  | [] => None
  | (k', v) :: d' => if String.eqb k k' then Some v else dict_get k d'
  end.

(** ** [base64.b64encode] and [base64.b64decode] *)

Module Base64.

Definition BASE64_PAD : byte := x3d.

Definition table_b2a_base64 : string :=
  "ABCDEFGHIJKLMNOPQRSTUVWXYZabcdefghijklmnopqrstuvwxyz0123456789+/".

Definition b2a (n : N) : byte :=
  match String.get (N.to_nat n) table_b2a_base64 with
  | Some c => byte_of_ascii c
  | None => BASE64_PAD
  end.

(** [table_a2b_base64]: the value of an alphabet character, 255 (the C table's
    -1 read as an unsigned char) for every other byte. *)
Definition table_a2b_base64 (c : byte) : N :=
  let n := to_N c in
  (if (65 <=? n) && (n <=? 90) then n - 65
  else if (97 <=? n) && (n <=? 122) then n - 71
  else if (48 <=? n) && (n <=? 57) then n + 4
  else if n =? 43 then 62
  else if n =? 47 then 63
  else 255)%N.

(** A C [unsigned char] store: the value modulo 256. *)
Definition uchar (n : N) : byte :=
  match of_N (n mod 256)%N with
  | Some b => b
  | None => x00
  end.

(** [binascii.b2a_base64(data, newline=False)]: three bytes give four
    characters; one or two trailing bytes are padded with [=]. *)
Fixpoint b2a_base64 (data : bytes) : bytes :=
  match data with
  | [] => []
  | [a] =>
      let a := to_N a in
      [b2a (N.shiftr a 2); b2a (N.shiftl (N.land a 3) 4); BASE64_PAD; BASE64_PAD]
  | [a; b] =>
      let a := to_N a in
      let b := to_N b in
      [b2a (N.shiftr a 2);
       b2a (N.lor (N.shiftl (N.land a 3) 4) (N.shiftr b 4));
       b2a (N.shiftl (N.land b 15) 2);
       BASE64_PAD]
  | a :: b :: c :: rest =>
      let a := to_N a in
      let b := to_N b in
      let c := to_N c in
      b2a (N.shiftr a 2)
      :: b2a (N.lor (N.shiftl (N.land a 3) 4) (N.shiftr b 4))
      :: b2a (N.lor (N.shiftl (N.land b 15) 2) (N.shiftr c 6))
      :: b2a (N.land c 63)
      :: b2a_base64 rest
  end.

Definition emit (b : byte) (r : result bytes) : result bytes :=
  rmap (cons b) r.

(** [binascii.a2b_base64(data)] in its default, non-strict mode: bytes outside
    the alphabet are skipped, a pad that completes a quad ends the parse, and
    input that ends inside a quad raises [binascii.Error]. *)
Fixpoint a2b_loop (quad_pos leftchar pads : N) (data : bytes) : result bytes :=
  match data with
  | [] => if quad_pos =? 0 then Ok [] else Raise binascii_Error
  | this :: data' =>
      if Byte.eqb this BASE64_PAD then
        if (2 <=? quad_pos) && (4 <=? quad_pos + (pads + 1)) then Ok []
        else a2b_loop quad_pos leftchar (if 2 <=? quad_pos then pads + 1 else pads) data'
      else
        let this_ch := table_a2b_base64 this in
        if 64 <=? this_ch then a2b_loop quad_pos leftchar pads data'
        else if quad_pos =? 0 then
          a2b_loop 1 this_ch 0 data'
        else if quad_pos =? 1 then
          emit (uchar (N.lor (N.shiftl leftchar 2) (N.shiftr this_ch 4)))
               (a2b_loop 2 (N.land this_ch 15) 0 data')
        else if quad_pos =? 2 then
          emit (uchar (N.lor (N.shiftl leftchar 4) (N.shiftr this_ch 2)))
               (a2b_loop 3 (N.land this_ch 3) 0 data')
        else
          emit (uchar (N.lor (N.shiftl leftchar 6) this_ch))
               (a2b_loop 0 0 0 data')
  end%N.

Definition a2b_base64 (data : bytes) : result bytes := a2b_loop 0 0 0 data.

(** [base64.b64encode(s)]. *)
Definition b64encode (s : bytes) : bytes := b2a_base64 s.

(** [bytes.decode("utf-8")] of ASCII-only bytes, which is all [b64encode]
    produces. *)
Definition decode_utf8 (b : bytes) : string := string_of_list_byte b.

(** [s.encode("ascii")] as [base64._bytes_from_decode_data] calls it: a
    non-ASCII character is turned into [ValueError]. *)
Definition encode_ascii (s : string) : result bytes :=
  let b := list_byte_of_string s in
  if forallb (fun c => (to_N c <? 128)%N) b then Ok b else Raise ValueError.

(** [base64.b64decode(s)] for a [str] or [bytes] argument. *)
Definition b64decode (s : file_input) : result bytes :=
  match s with
  | FBytes b => a2b_base64 b
  | FStr t => rbind (encode_ascii t) a2b_base64
  end.

End Base64.

(** ** The network, the clock, the file system and PIL *)

(** A header value: text, or the text [json.dumps] gives for a value (kept as
    the value, since no part of the pipeline reads the serialisation back). *)
Inductive hval :=
| HStr (s : string)
| HJsonDumps (j : json).

Definition headers := list (string * hval).
Definition params := list (string * string).
Definition cookies := list (string * string).

(** The three [requests] calls of the pipelines, with everything they send.
    Every call passes [timeout=30]. *)
Inductive request :=
| POST_json (url : string) (h : headers) (c : cookies) (body : json)
| OPTIONS (url : string) (h : headers) (p : params)
| POST_data (url : string) (h : headers) (p : params) (c : cookies) (data : bytes).

(** What a call comes back with: a transport-level failure (connection error,
    timeout: a [RequestException]), or a response with its status code and,
    when the body is valid JSON, the decoded body. *)
Inductive reply (A : Type) :=
| TransportFailure
| Response (status_code : Z) (body : option A).
Arguments TransportFailure {A}.
Arguments Response {A} status_code body.

(** The JSON object the path-issuance endpoint answers with: an optional
    [code] of any JSON type and an optional string [resourcePath]. *)
Record resource_info := {
  ri_code : option json;
  ri_resourcePath : option string
}.

Record world := {
  issue_reply : request -> reply resource_info;
  options_reply : request -> reply unit;
  upload_reply : request -> reply json;
  (** [int(time.time() * 1000)] *)
  now_ms : Z;
  (** [cookies.json] *)
  cookies_json : cookies;
  (** the media file next to the script: [None] when it does not exist *)
  local_file : option bytes;
  (** [Image.open(BytesIO(data)).size]: [None] when [Image.open] raises *)
  pil_open : bytes -> option (Z * Z)
}.

(** Network code: the state is the list of requests issued so far, oldest
    first. *)
Definition M (A : Type) : Type := list request -> result A * list request.

Definition ret {A} (a : A) : M A := fun t => (Ok a, t).

Definition raise {A} (e : exn) : M A := fun t => (Raise e, t).

Definition bind {A B} (m : M A) (k : A -> M B) : M B :=
  fun t =>
    match m t with
    | (Ok a, t') => k a t'
    | (Raise e, t') => (Raise e, t')
    end.

Definition lift {A} (r : result A) : M A := fun t => (r, t).

(** [try: body except cls: handler]. *)
Definition try_except {A} (body : M A) (cls : exn -> bool) (handler : exn -> M A) : M A :=
  fun t =>
    match body t with
    | (Ok a, t') => (Ok a, t')
    | (Raise e, t') => if cls e then handler e t' else (Raise e, t')
    end.

(** Issue a request: it is appended to the trace whatever comes back. *)
Definition call {A} (answer : request -> reply A) (r : request) : M (Z * option A) :=
  fun t =>
    match answer r with
    | TransportFailure => (Raise RequestException, t ++ [r])
    | Response st b => (Ok (st, b), t ++ [r])
    end.

(** [response.json()]. *)
Definition response_json {A} (resp : Z * option A) : result A :=
  match snd resp with
  | Some j => Ok j
  | None => Raise JSONDecodeError
  end.

Declare Scope M_scope.
Delimit Scope M_scope with M.
Notation "x <- c ;; k" := (bind c (fun x => k))
  (at level 61, c at next level, right associativity) : M_scope.

(** ** Library functions the pipelines use *)

Definition dquote : string := String "034"%char EmptyString.

Definition CRLF : bytes := [x0d; x0a].

(** [s.encode("utf-8")]. *)
Definition encode_utf8 (s : string) : bytes := list_byte_of_string s.

(** [sep.join(parts)]. *)
Fixpoint bytes_join (sep : bytes) (parts : list bytes) : bytes :=
  match parts with
  | [] => []
  | [p] => p
  | p :: rest => p ++ sep ++ bytes_join sep rest
  end.

(** [posixpath.basename(p)]: what follows the last ['/']. *)
Fixpoint basename_from (acc p : string) : string :=
  match p with
  | EmptyString => acc
  | String c p' =>
      if Ascii.eqb c "/"%char then basename_from EmptyString p'
      else basename_from (acc ++ String c EmptyString)%string p'
  end.

Definition basename (p : string) : string := basename_from EmptyString p.

Fixpoint starts_with (needle hay : bytes) : bool :=
  match needle, hay with
  | [], _ => true
  | _ :: _, [] => false
  | n :: needle', h :: hay' => Byte.eqb n h && starts_with needle' hay'
  end.

Fixpoint find_from (needle hay : bytes) (i : Z) : Z :=
  if starts_with needle hay then i
  else match hay with
       | [] => -1
       | _ :: hay' => find_from needle hay' (i + 1)
       end.

(** [hay.find(needle)]: the lowest index where [needle] occurs, or -1. *)
Definition bytes_find (hay needle : bytes) : Z := find_from needle hay 0.

Definition byteZ (b : byte) : Z := Z.of_N (to_N b).

(** The unsigned integer four bytes spell, most significant first. *)
Definition be32 (b0 b1 b2 b3 : byte) : Z :=
  byteZ b0 * 2 ^ 24 + byteZ b1 * 2 ^ 16 + byteZ b2 * 2 ^ 8 + byteZ b3.

(** [struct.unpack(">I", b)[0]]: exactly four bytes, big-endian. *)
Definition struct_unpack_BE_I (b : bytes) : result Z :=
  match b with
  | [b0; b1; b2; b3] => Ok (be32 b0 b1 b2 b3)
  | _ => Raise struct_error
  end.

(** [a / b] on ints: the quotient, reduced; [ZeroDivisionError] when [b] is 0.
    The operands here are unsigned 32-bit values, so [b] is never negative. *)
Definition py_truediv (a b : Z) : result Q :=
  if b =? 0 then Raise ZeroDivisionError
  else Ok (Qred (Qmake a (Z.to_pos b))).

(** [x != 200] for the value [dict.get("code")] returned ([None] when the key is
    absent): ints and floats compare by value, [True] and [False] are 1 and 0,
    everything else differs from 200. *)
Definition py_ne_200 (v : option json) : bool :=
  match v with
  | Some (JInt n) => negb (n =? 200)
  | Some (JFloat q) => negb (Qeq_bool q (200 # 1))
  | _ => true
  end.

(** [_get_common_headers], the same in both clients. *)
Definition _get_common_headers : headers :=
  [ ("accept", HStr "application/json, text/plain, */*");
    ("accept-language", HStr "ja,en-US;q=0.9,en;q=0.8");
    ("device-language", HStr "ja_JP");
    ("origin", HStr "https://talk.worksmobile.com");
    ("referer", HStr "https://talk.worksmobile.com/");
    ("sec-ch-ua",
     HStr (dquote ++ "Chromium" ++ dquote ++ ";v=" ++ dquote ++ "124" ++ dquote ++ ", "
           ++ dquote ++ "Google Chrome" ++ dquote ++ ";v=" ++ dquote ++ "124" ++ dquote ++ ", "
           ++ dquote ++ "Not-A.Brand" ++ dquote ++ ";v=" ++ dquote ++ "99" ++ dquote));
    ("sec-ch-ua-mobile", HStr "?0");
    ("sec-ch-ua-platform", HStr (dquote ++ "Windows" ++ dquote));
    ("user-agent",
     HStr ("Mozilla/5.0 (Windows NT 10.0; Win64; x64) "
           ++ "AppleWebKit/537.36 (KHTML, like Gecko) "
           ++ "Chrome/128.0.0.0 Safari/537.36")) ]%string.

Definition upload_params : params :=
  [ ("Servicekey", "oneapp"); ("writeMode", "overwrite"); ("isMakethumbnail", "true") ]%string.

Definition options_headers : headers :=
  [ ("Accept", HStr "*/*");
    ("Accept-Language", HStr "ja,en-US;q=0.9,en;q=0.8");
    ("Access-Control-Request-Headers",
     HStr ("device-language,x-callerno,x-channelno,x-extras,"
           ++ "x-ocn,x-resourcepath,x-serviceid,x-tid,x-type"));
    ("Access-Control-Request-Method", HStr "POST");
    ("Connection", HStr "keep-alive");
    ("Origin", HStr "https://talk.worksmobile.com");
    ("Referer", HStr "https://talk.worksmobile.com/") ]%string.

(** One element of the list [form]: a [str] or the payload [bytes]. *)
Inductive form_part :=
| PStr (s : string)
| PBytes (b : bytes).

(** [part.encode("utf-8") if isinstance(part, str) else part]. *)
Definition encode_part (p : form_part) : bytes :=
  match p with
  | PStr s => encode_utf8 s
  | PBytes b => b
  end.

(** [int(s)] for a string of decimal digits. *)
Definition py_int (s : string) : result Z :=
  match NilZero.int_of_string s with
  | Some d => Ok (Z.of_int d)
  | None => Raise ValueError
  end.

(** [{"code": n}]. *)
Definition code_dict (n : Z) : json := JObj [("code"%string, JInt n)].

(** The [file_data] both uploader constructors store:
    [base64.b64decode(file_data) if isinstance(file_data, str) else file_data]. *)
Definition uploader_file_data (file_data : file_input) : result bytes :=
  match file_data with
  | FStr s => Base64.b64decode (FStr s)
  | FBytes b => Ok b
  end.

(** ** [send_video.py] *)

Module SendVideo.

Record VideoUploader := {
  file_data : bytes;
  file_size : Z;
  duration : Q
}.

Definition mvhd : bytes := [x6d; x76; x68; x64].

(** [VideoUploader._get_mp4_duration]; the body of the [try] first, then the
    method with its [except Exception]. *)
Definition _get_mp4_duration_try (file_data : bytes) : result Q :=
  let mvhd_pos := bytes_find file_data mvhd in
  if mvhd_pos =? -1 then Ok (0 # 1)
  else
    (time_scale <- struct_unpack_BE_I (py_slice file_data (mvhd_pos + 16) (mvhd_pos + 20));;
     duration <- struct_unpack_BE_I (py_slice file_data (mvhd_pos + 20) (mvhd_pos + 24));;
     py_truediv duration time_scale)%result.

Definition _get_mp4_duration (file_data : bytes) : result Q :=
  rtry (_get_mp4_duration_try file_data) is_Exception (fun _ => Ok (0 # 1)).

(** [VideoUploader.__init__]. *)
Definition VideoUploader_init (file_data : file_input) : result VideoUploader :=
  (data <- uploader_file_data file_data;;
   d <- _get_mp4_duration data;;
   Ok {| file_data := data; file_size := py_len data; duration := d |})%result.

Record WorksVideoAPI := {
  base_url : string;
  storage_url : string;
  api_cookies : cookies;
  channel_no : string;
  caller_no : string
}.

(** [WorksVideoAPI.__init__]. *)
Definition WorksVideoAPI_init (w : world) (channel_no caller_no : string) : WorksVideoAPI :=
  {| base_url := "https://talk.worksmobile.com";
     storage_url := "https://storage.worksmobile.com";
     api_cookies := cookies_json w;
     channel_no := channel_no;
     caller_no := caller_no |}.

Definition boundary : string := "----WebKitFormBoundaryIDpMEPWWgRoczkxm".

(** The dict [data] of [issue_resource_path], given the base64 text. *)
Definition issue_data (filename file_data : string) (channel_no : Z) : result json :=
  (decoded <- Base64.b64decode (FStr file_data);;
   Ok (JObj [ ("serviceId", JStr "works");
              ("channelNo", JInt channel_no);
              ("filename", JStr filename);
              ("filesize", JInt (py_len decoded));
              ("msgType", JInt 14);
              ("channelType", JInt 10) ]%string))%result.

Definition issue_resource_path (w : world) (self : WorksVideoAPI)
    (filename : string) (file_data : file_input) (channel_no : Z) : M resource_info :=
  let url := (base_url self ++ "/p/oneapp/client/chat/issueResourcePath")%string in
  let headers :=
    dict_update _get_common_headers
      [ ("content-type", HStr "application/json;charset=UTF-8");
        ("priority", HStr "u=1, i") ]%string in
  let file_data :=
    match file_data with
    | FBytes b => Base64.decode_utf8 (Base64.b64encode b)
    | FStr s => s
    end in
  (data <- lift (issue_data filename file_data channel_no);;
   response <- call (issue_reply w) (POST_json url headers (api_cookies self) data);;
   lift (response_json response))%M.

Definition upload_file_options (w : world) (self : WorksVideoAPI) (resource_path : string)
  : M Z :=
  let url := (storage_url self ++ resource_path)%string in
  (response <- call (options_reply w) (OPTIONS url options_headers upload_params);;
   ret (fst response))%M.

(** The list [form] of [upload_file]. *)
Definition upload_form (resource_path : string) (payload : bytes) : list form_part :=
  [ PStr ("--" ++ boundary);
    PStr ("Content-Disposition: form-data; "
          ++ "name=" ++ dquote ++ "file" ++ dquote ++ "; "
          ++ "filename=" ++ dquote ++ basename resource_path ++ dquote);
    PStr "Content-Type: video/mp4";
    PStr "";
    PBytes payload;
    PStr ("--" ++ boundary ++ "--") ]%string.

(** The headers of the upload POST before [Content-Length] is set. *)
Definition upload_headers (w : world) (self : WorksVideoAPI) (resource_path : string)
    (uploader : VideoUploader) : headers :=
  let extras :=
    JObj [ ("filesize", JInt (file_size uploader));
           ("filename", JStr (basename resource_path));
           ("resourcepath", JStr resource_path);
           ("recordtime", JFloat (duration uploader)) ]%string in
  dict_update _get_common_headers
    [ ("Content-Type", HStr ("multipart/form-data; boundary=" ++ boundary));
      ("Device-Language", HStr "ja_JP");
      ("x-resourcepath", HStr resource_path);
      ("x-serviceid", HStr "works");
      ("x-type", HStr "14");
      ("x-callerno", HStr (caller_no self));
      ("x-channelno", HStr (channel_no self));
      ("x-extras", HJsonDumps extras);
      ("x-ocn", HStr "1");
      ("x-tid", HStr (py_str_int (now_ms w))) ]%string.

Definition upload_file (w : world) (self : WorksVideoAPI) (resource_path : string)
    (file_data : file_input) : M json :=
  (uploader <- lift (VideoUploader_init file_data);;
   if file_size uploader =? 0 then ret (code_dict (-1))
   else
     let url := (storage_url self ++ resource_path)%string in
     let headers := upload_headers w self resource_path uploader in
     let form := upload_form resource_path (SendVideo.file_data uploader) in
     let form_data := bytes_join CRLF (map encode_part form) in
     let headers :=
       dict_set "Content-Length" (HStr (py_str_int (py_len form_data))) headers in
     try_except
       (response <- call (upload_reply w)
                      (POST_data url headers upload_params (api_cookies self) form_data);;
        try_except (lift (response_json response)) is_ValueError
          (fun _ => ret (code_dict (fst response))))
       is_RequestException
       (fun _ => ret (code_dict (-1))))%M.

Definition main (w : world) : M json :=
  let channel_no := "307464837"%string in
  let caller_no := "110002509764123"%string in
  let api := WorksVideoAPI_init w channel_no caller_no in
  match local_file w with
  | None => ret JNull
  | Some file_data =>
      if py_len file_data =? 0 then ret JNull
      else
        let base64_data := Base64.decode_utf8 (Base64.b64encode file_data) in
        (ch <- lift (py_int channel_no);;
         resource_info <- issue_resource_path w api "video.mp4" (FStr base64_data) ch;;
         if py_ne_200 (ri_code resource_info) then ret JNull
         else
           match ri_resourcePath resource_info with
           | None => raise KeyError
           | Some resource_path =>
               status <- upload_file_options w api resource_path;;
               result <- upload_file w api resource_path (FBytes file_data);;
               ret JNull
           end)%M
  end.

End SendVideo.

(** ** [send_image.py] *)

Module SendImage.

(** The PIL image object, of which the client reads only [size]. *)
Record Image := { size : Z * Z }.

Record ImageUploader := {
  file_data : bytes;
  file_size : Z;
  _image : option Image
}.

(** [ImageUploader.__init__]. *)
Definition ImageUploader_init (file_data : file_input) : result ImageUploader :=
  (data <- uploader_file_data file_data;;
   Ok {| file_data := data; file_size := py_len data; _image := None |})%result.

(** The property [image]: the cached object, or [Image.open] on first use;
    it returns the value and the uploader with its cache. *)
Definition image (w : world) (self : ImageUploader) : option Image * ImageUploader :=
  match _image self with
  | Some im => (Some im, self)
  | None =>
      match pil_open w (file_data self) with
      | Some sz =>
          let im := {| size := sz |} in
          (Some im,
           {| file_data := file_data self; file_size := file_size self; _image := Some im |})
      | None => (None, self)
      end
  end.

(** The property [dimensions]. *)
Definition dimensions (w : world) (self : ImageUploader)
  : result ((Z * Z) * ImageUploader) :=
  let (im, self) := image w self in
  match im with
  | None => Ok ((0, 0), self)
  | Some _ =>
      let (im, self) := image w self in
      match im with
      | Some i => Ok (size i, self)
      | None => Raise AttributeError
      end
  end.

Record WorksImageAPI := {
  base_url : string;
  storage_url : string;
  api_cookies : cookies;
  channel_no : string;
  caller_no : string
}.

(** [WorksImageAPI.__init__]. *)
Definition WorksImageAPI_init (w : world) (channel_no caller_no : string) : WorksImageAPI :=
  {| base_url := "https://talk.worksmobile.com";
     storage_url := "https://storage.worksmobile.com";
     api_cookies := cookies_json w;
     channel_no := channel_no;
     caller_no := caller_no |}.

Definition boundary : string := "----WebKitFormBoundaryrdK6G1RVu5s3MxSA".

(** The dict [data] of [issue_resource_path], given the base64 text. *)
Definition issue_data (filename file_data : string) (channel_no : Z) : result json :=
  (decoded <- Base64.b64decode (FStr file_data);;
   Ok (JObj [ ("serviceId", JStr "works");
              ("channelNo", JInt channel_no);
              ("filename", JStr filename);
              ("filesize", JInt (py_len decoded));
              ("msgType", JInt 11);
              ("channelType", JInt 10);
              ("fileData", JStr file_data) ]%string))%result.

Definition issue_resource_path (w : world) (self : WorksImageAPI)
    (filename : string) (file_data : file_input) (channel_no : Z) : M resource_info :=
  let url := (base_url self ++ "/p/oneapp/client/chat/issueResourcePath")%string in
  let headers :=
    dict_update _get_common_headers
      [ ("content-type", HStr "application/json;charset=UTF-8");
        ("priority", HStr "u=1, i") ]%string in
  let file_data :=
    match file_data with
    | FBytes b => Base64.decode_utf8 (Base64.b64encode b)
    | FStr s => s
    end in
  (data <- lift (issue_data filename file_data channel_no);;
   response <- call (issue_reply w) (POST_json url headers (api_cookies self) data);;
   lift (response_json response))%M.

Definition upload_file_options (w : world) (self : WorksImageAPI) (resource_path : string)
  : M Z :=
  let url := (storage_url self ++ resource_path)%string in
  (response <- call (options_reply w) (OPTIONS url options_headers upload_params);;
   ret (fst response))%M.

(** The list [form] of [upload_file]. *)
Definition upload_form (resource_path : string) (payload : bytes) : list form_part :=
  [ PStr ("--" ++ boundary);
    PStr ("Content-Disposition: form-data; "
          ++ "name=" ++ dquote ++ "file" ++ dquote ++ "; "
          ++ "filename=" ++ dquote ++ basename resource_path ++ dquote);
    PStr "Content-Type: image/png";
    PStr "";
    PBytes payload;
    PStr ("--" ++ boundary ++ "--") ]%string.

(** The headers of the upload POST before [Content-Length] is set. *)
Definition upload_headers (w : world) (self : WorksImageAPI) (resource_path : string)
    (uploader : ImageUploader) (width height : Z) : headers :=
  let extras :=
    JObj [ ("filesize", JInt (file_size uploader));
           ("filename", JStr (basename resource_path));
           ("resourcepath", JStr resource_path);
           ("width", JInt width);
           ("height", JInt height) ]%string in
  dict_update _get_common_headers
    [ ("Content-Type", HStr ("multipart/form-data; boundary=" ++ boundary));
      ("Device-Language", HStr "ja_JP");
      ("x-resourcepath", HStr resource_path);
      ("x-serviceid", HStr "works");
      ("x-type", HStr "11");
      ("x-callerno", HStr (caller_no self));
      ("x-channelno", HStr (channel_no self));
      ("x-extras", HJsonDumps extras);
      ("x-ocn", HStr "1");
      ("x-tid", HStr (py_str_int (now_ms w))) ]%string.

Definition upload_file (w : world) (self : WorksImageAPI) (resource_path : string)
    (file_data : file_input) : M json :=
  (uploader <- lift (ImageUploader_init file_data);;
   if file_size uploader =? 0 then ret (code_dict (-1))
   else
     dims <- lift (dimensions w uploader);;
     let '((width, height), uploader) := dims in
     if (width =? 0) || (height =? 0) then ret (code_dict (-1))
     else
       let url := (storage_url self ++ resource_path)%string in
       let headers := upload_headers w self resource_path uploader width height in
       let form := upload_form resource_path (SendImage.file_data uploader) in
       let form_data := bytes_join CRLF (map encode_part form) in
       let headers :=
         dict_set "Content-Length" (HStr (py_str_int (py_len form_data))) headers in
       try_except
         (response <- call (upload_reply w)
                        (POST_data url headers upload_params (api_cookies self) form_data);;
          try_except (lift (response_json response)) is_ValueError
            (fun _ => ret (code_dict (fst response))))
         is_RequestException
         (fun _ => ret (code_dict (-1))))%M.

Definition main (w : world) : M json :=
  let channel_no := "307464837"%string in
  let caller_no := "110002509764123"%string in
  let api := WorksImageAPI_init w channel_no caller_no in
  match local_file w with
  | None => ret JNull
  | Some file_data =>
      if py_len file_data =? 0 then ret JNull
      else
        let base64_data := Base64.decode_utf8 (Base64.b64encode file_data) in
        (ch <- lift (py_int channel_no);;
         resource_info <- issue_resource_path w api "image.png" (FStr base64_data) ch;;
         if py_ne_200 (ri_code resource_info) then ret JNull
         else
           match ri_resourcePath resource_info with
           | None => raise KeyError
           | Some resource_path =>
               status <- upload_file_options w api resource_path;;
               result <- upload_file w api resource_path (FBytes file_data);;
               ret JNull
           end)%M
  end.

End SendImage.

(** ** Vocabulary of the statements *)

(** [needle] occurs in [hay] at index [i]. *)
Definition occurs_at (needle hay : bytes) (i : nat) : Prop :=
  exists pre post, hay = pre ++ needle ++ post /\ List.length pre = i.

(** [i] is the index of the first occurrence of [needle] in [hay]. *)
Definition first_occurrence (needle hay : bytes) (i : nat) : Prop :=
  occurs_at needle hay i /\ forall j, occurs_at needle hay j -> (i <= j)%nat.

(** The storage POST among the requests. *)
Definition is_upload (r : request) : bool :=
  match r with
  | POST_data _ _ _ _ _ => true
  | _ => false
  end.

(** The preflight among the requests. *)
Definition is_preflight (r : request) : bool :=
  match r with
  | OPTIONS _ _ _ => true
  | _ => false
  end.

(** A multipart body with one part [file], as the specification words it: the
    opening boundary line, the disposition with the given file name, the
    content type, an empty line, the payload and the closing boundary line. *)
Definition multipart_body (boundary filename content_type : string) (payload : bytes)
  : bytes :=
  encode_utf8 ("--" ++ boundary) ++ CRLF
  ++ encode_utf8 ("Content-Disposition: form-data; name=" ++ dquote ++ "file" ++ dquote
                  ++ "; filename=" ++ dquote ++ filename ++ dquote) ++ CRLF
  ++ encode_utf8 ("Content-Type: " ++ content_type) ++ CRLF
  ++ CRLF
  ++ payload ++ CRLF
  ++ encode_utf8 ("--" ++ boundary ++ "--").

(** The requests the pipelines issue, spelled out from their inputs: the
    storage POST for a payload [p] (with the duration, or the dimensions, the
    uploader extracted), and the path-issuance POST for the base64 text [s]
    whose decoding has [filesize] bytes. *)
Definition video_upload_request (w : world) (self : SendVideo.WorksVideoAPI)
    (resource_path : string) (p : bytes) (q : Q) : request :=
  let uploader :=
    {| SendVideo.file_data := p; SendVideo.file_size := py_len p;
       SendVideo.duration := q |} in
  let form_data :=
    bytes_join CRLF (map encode_part (SendVideo.upload_form resource_path p)) in
  POST_data (SendVideo.storage_url self ++ resource_path)
    (dict_set "Content-Length" (HStr (py_str_int (py_len form_data)))
       (SendVideo.upload_headers w self resource_path uploader))
    upload_params (SendVideo.api_cookies self) form_data.

Definition image_upload_request (w : world) (self : SendImage.WorksImageAPI)
    (resource_path : string) (p : bytes) (width height : Z) : request :=
  let uploader :=
    {| SendImage.file_data := p; SendImage.file_size := py_len p;
       SendImage._image := Some {| SendImage.size := (width, height) |} |} in
  let form_data :=
    bytes_join CRLF (map encode_part (SendImage.upload_form resource_path p)) in
  POST_data (SendImage.storage_url self ++ resource_path)
    (dict_set "Content-Length" (HStr (py_str_int (py_len form_data)))
       (SendImage.upload_headers w self resource_path uploader width height))
    upload_params (SendImage.api_cookies self) form_data.

Definition issue_headers : headers :=
  dict_update _get_common_headers
    [ ("content-type", HStr "application/json;charset=UTF-8");
      ("priority", HStr "u=1, i") ]%string.

Definition video_issue_request (self : SendVideo.WorksVideoAPI)
    (filename : string) (filesize channel_no : Z) : request :=
  POST_json (SendVideo.base_url self ++ "/p/oneapp/client/chat/issueResourcePath")
    issue_headers (SendVideo.api_cookies self)
    (JObj [ ("serviceId", JStr "works");
            ("channelNo", JInt channel_no);
            ("filename", JStr filename);
            ("filesize", JInt filesize);
            ("msgType", JInt 14);
            ("channelType", JInt 10) ]%string).

Definition image_issue_request (self : SendImage.WorksImageAPI)
    (filename s : string) (filesize channel_no : Z) : request :=
  POST_json (SendImage.base_url self ++ "/p/oneapp/client/chat/issueResourcePath")
    issue_headers (SendImage.api_cookies self)
    (JObj [ ("serviceId", JStr "works");
            ("channelNo", JInt channel_no);
            ("filename", JStr filename);
            ("filesize", JInt filesize);
            ("msgType", JInt 11);
            ("channelType", JInt 10);
            ("fileData", JStr s) ]%string).

(** The base64 text [issue_resource_path] works on:
    [base64.b64encode(file_data).decode("utf-8")] for [bytes], the argument
    itself for [str]. *)
Definition base64_text (file_data : file_input) : string :=
  match file_data with
  | FBytes b => Base64.decode_utf8 (Base64.b64encode b)
  | FStr s => s
  end.

(** What [upload_file] returns once the storage POST came back. *)
Definition upload_result (r : reply json) : json :=
  match r with
  | TransportFailure => code_dict (-1)
  | Response status None => code_dict status
  | Response _ (Some j) => j
  end.

(** What [issue_resource_path] returns, or raises, once its POST came back. *)
Definition issue_result (r : reply resource_info) : result resource_info :=
  match r with
  | TransportFailure => Raise RequestException
  | Response _ None => Raise JSONDecodeError
  | Response _ (Some ri) => Ok ri
  end.

(** The preflight request for a resource path. *)
Definition preflight_request (storage_url resource_path : string) : request :=
  OPTIONS (storage_url ++ resource_path) options_headers upload_params.

(** The client objects [main] builds, and the path-issuance request it sends
    for a file. *)
Definition video_main_api (w : world) : SendVideo.WorksVideoAPI :=
  SendVideo.WorksVideoAPI_init w "307464837" "110002509764123".

Definition image_main_api (w : world) : SendImage.WorksImageAPI :=
  SendImage.WorksImageAPI_init w "307464837" "110002509764123".

Definition video_main_issue_request (w : world) (file : bytes) : request :=
  video_issue_request (video_main_api w) "video.mp4" (py_len file) 307464837.

Definition image_main_issue_request (w : world) (file : bytes) : request :=
  image_issue_request (image_main_api w) "image.png"
    (Base64.decode_utf8 (Base64.b64encode file)) (py_len file) 307464837.

(** The caller's view of [upload_file] run as the last step of [main]: [main]
    logs the result and returns [None]; an exception passes through. *)
Definition main_after_upload (r : result json * list request) : result json * list request :=
  match r with
  | (Ok _, t) => (Ok JNull, t)
  | (Raise e, t) => (Raise e, t)
  end.

(** The headers of a request, and a field of the JSON object a path-issuance
    request carries. *)
Definition request_headers (r : request) : headers :=
  match r with
  | POST_json _ h _ _ => h
  | OPTIONS _ h _ => h
  | POST_data _ h _ _ _ => h
  end.

Definition request_field (k : string) (r : request) : option json :=
  match r with
  | POST_json _ _ _ (JObj fields) => dict_get k fields
  | _ => None
  end.

(** The URL and the query parameters of a request. *)
Definition request_url (r : request) : string :=
  match r with
  | POST_json url _ _ _ => url
  | OPTIONS url _ _ => url
  | POST_data url _ _ _ _ => url
  end.

Definition request_params (r : request) : params :=
  match r with
  | POST_json _ _ _ _ => []
  | OPTIONS _ _ p => p
  | POST_data _ _ p _ _ => p
  end.

(** The cookies a request is sent with; the preflight is sent with none. *)
Definition request_cookies (r : request) : option cookies :=
  match r with
  | POST_json _ _ c _ => Some c
  | OPTIONS _ _ _ => None
  | POST_data _ _ _ c _ => Some c
  end.

(** Every entry of [d] is an entry of the request's headers, unchanged. *)
Definition carries_headers (d : headers) (r : request) : bool :=
  forallb (fun kv =>
             match dict_get (fst kv) (request_headers r), snd kv with
             | Some (HStr s), HStr s' => String.eqb s s'
             | _, _ => false
             end) d.

(** The path-issuance POST among the requests. *)
Definition is_issue (r : request) : bool :=
  match r with
  | POST_json _ _ _ _ => true
  | _ => false
  end.

(** A field of the object the [x-extras] header serialises. *)
Definition extras_field (k : string) (r : request) : option json :=
  match dict_get "x-extras" (request_headers r) with
  | Some (HJsonDumps (JObj fields)) => dict_get k fields
  | _ => None
  end.

(** The text of a header, when it is present and plain text. *)
Definition header_text (k : string) (r : request) : option string :=
  match dict_get k (request_headers r) with
  | Some (HStr s) => Some s
  | _ => None
  end.

(** The requests of one run are in protocol order: path issuance, then
    preflight, then upload, each at most once and none without the one
    before. *)
Definition in_protocol_order (l : list request) : bool :=
  match l with
  | [] => true
  | [a] => is_issue a
  | [a; b] => is_issue a && is_preflight b
  | [a; b; c] => is_issue a && is_preflight b && is_upload c
  | _ => false
  end.

(** [s.split(sep)] for a one-character separator. *)
Fixpoint split_from (sep : ascii) (acc s : string) : list string :=
  match s with
  | EmptyString => [acc]
  | String c s' =>
      if Ascii.eqb c sep then acc :: split_from sep EmptyString s'
      else split_from sep (acc ++ String c EmptyString)%string s'
  end.

Definition split_on (sep : ascii) (s : string) : list string :=
  split_from sep EmptyString s.

(** ['/' in s]. *)
Fixpoint has_slash (s : string) : bool :=
  match s with
  | EmptyString => false
  | String c s' => Ascii.eqb c "/"%char || has_slash s'
  end.

(** A byte the base64 decoder skips: outside the alphabet and not the pad. *)
Definition skipped_byte (c : byte) : bool :=
  negb (Byte.eqb c Base64.BASE64_PAD) && (64 <=? Base64.table_a2b_base64 c)%N.


Definition with_pil (f : bytes -> option (Z * Z)) (w : world) : world :=
  {| issue_reply := issue_reply w;
     options_reply := options_reply w;
     upload_reply := upload_reply w;
     now_ms := now_ms w;
     cookies_json := cookies_json w;
     local_file := local_file w;
     pil_open := f |}.

(** The numbers below [k], for checks by enumeration. *)
Definition below (k : nat) : list N := map N.of_nat (seq 0 k).

(** ** Base64 checks by enumeration *)

Module Base64Check.
Import Base64.

(** The six-bit groups the encoder takes from the bytes [a b c]. *)
Definition s1 (a : byte) : N := N.shiftr (to_N a) 2.
Definition s2 (a b : byte) : N := N.lor (N.shiftl (N.land (to_N a) 3) 4) (N.shiftr (to_N b) 4).
Definition s3 (b c : byte) : N := N.lor (N.shiftl (N.land (to_N b) 15) 2) (N.shiftr (to_N c) 6).
Definition s4 (c : byte) : N := N.land (to_N c) 63.
Definition s2_last (a : byte) : N := N.shiftl (N.land (to_N a) 3) 4.
Definition s3_last (b : byte) : N := N.shiftl (N.land (to_N b) 15) 2.

Definition sextet_ok (n : N) : bool :=
  (table_a2b_base64 (b2a n) =? n)%N
  && negb (Byte.eqb (b2a n) BASE64_PAD)
  && (to_N (b2a n) <? 128)%N.

(** What decoding needs of the groups of two adjacent bytes. *)
Definition pair_ok (a b : byte) : bool :=
  (s1 a <? 64)%N && (s2 a b <? 64)%N && (s3 a b <? 64)%N && (s4 a <? 64)%N
  && (s2_last a <? 64)%N && (s3_last a <? 64)%N
  && Byte.eqb (uchar (N.lor (N.shiftl (s1 a) 2) (N.shiftr (s2 a b) 4))) a
  && Byte.eqb (uchar (N.lor (N.shiftl (s1 a) 2) (N.shiftr (s2_last a) 4))) a
  && (N.land (s2 a b) 15 =? N.shiftr (to_N b) 4)%N
  && Byte.eqb (uchar (N.lor (N.shiftl (N.shiftr (to_N a) 4) 4) (N.shiftr (s3 a b) 2))) a
  && Byte.eqb (uchar (N.lor (N.shiftl (N.shiftr (to_N a) 4) 4) (N.shiftr (s3_last a) 2))) a
  && (N.land (s3 a b) 3 =? N.shiftr (to_N b) 6)%N
  && Byte.eqb (uchar (N.lor (N.shiftl (N.shiftr (to_N a) 6) 6) (s4 a))) a.

End Base64Check.

(** ** Mock transports for the concrete runs *)

Module Mock.

(** A one-byte file, an image PIL reports as 10 x 10, and a server that
    accepts every step: path issuance answers [{code: 200, resourcePath:
    "/abc"}], the upload answers [{code: 200}]. *)
Definition accepting : world :=
  {| issue_reply := fun _ =>
       Response 200 (Some {| ri_code := Some (JInt 200);
                             ri_resourcePath := Some "/abc"%string |});
     options_reply := fun _ => Response 200 None;
     upload_reply := fun _ => Response 200 (Some (code_dict 200));
     now_ms := 1700000000000;
     cookies_json := [];
     local_file := Some [x41];
     pil_open := fun _ => Some (10, 10) |}.

Definition with_issue (r : reply resource_info) (w : world) : world :=
  {| issue_reply := fun _ => r;
     options_reply := options_reply w;
     upload_reply := upload_reply w;
     now_ms := now_ms w;
     cookies_json := cookies_json w;
     local_file := local_file w;
     pil_open := pil_open w |}.

Definition with_options (r : reply unit) (w : world) : world :=
  {| issue_reply := issue_reply w;
     options_reply := fun _ => r;
     upload_reply := upload_reply w;
     now_ms := now_ms w;
     cookies_json := cookies_json w;
     local_file := local_file w;
     pil_open := pil_open w |}.

Definition with_upload (r : reply json) (w : world) : world :=
  {| issue_reply := issue_reply w;
     options_reply := options_reply w;
     upload_reply := fun _ => r;
     now_ms := now_ms w;
     cookies_json := cookies_json w;
     local_file := local_file w;
     pil_open := pil_open w |}.

(** Path issuance answers [{code: 500}]. *)
Definition rejecting : world :=
  with_issue (Response 200 (Some {| ri_code := Some (JInt 500);
                                    ri_resourcePath := None |})) accepting.

(** The preflight fails at transport level. *)
Definition preflight_down : world := with_options TransportFailure accepting.

Definition video_api : SendVideo.WorksVideoAPI :=
  SendVideo.WorksVideoAPI_init accepting "307464837" "110002509764123".

Definition image_api : SendImage.WorksImageAPI :=
  SendImage.WorksImageAPI_init accepting "307464837" "110002509764123".

(** A payload with an [mvhd] box at offset 4: time scale 1000, duration 2500. *)
Definition mp4_2500_1000 : bytes :=
  [x00; x00; x00; x6c] ++ SendVideo.mvhd
  ++ [x00; x00; x00; x00; x00; x00; x00; x00; x00; x00; x00; x00]
  ++ [x00; x00; x03; xe8; x00; x00; x09; xc4]
  ++ [x00; x01; x00; x00].

End Mock.

(** * Proofs *)

(** ** Checks by enumeration *)

Lemma forall_below (P : N -> bool) (k : nat) :
  forallb P (below k) = true -> forall n, (n < N.of_nat k)%N -> P n = true.
Proof.
  unfold below. rewrite forallb_forall. intros H n Hn. apply H.
  apply in_map_iff. exists (N.to_nat n). split; [lia |].
  apply in_seq. lia.
Qed.

Lemma uchar_to_N (b : byte) : Base64.uchar (to_N b) = b.
Proof.
  unfold Base64.uchar. pose proof (to_N_bounded b) as Hb.
  rewrite N.mod_small by lia. now rewrite of_to_N.
Qed.

Lemma forall_byte (P : byte -> bool) :
  forallb (fun n => P (Base64.uchar n)) (below 256) = true -> forall b, P b = true.
Proof.
  intros H b. rewrite <- (uchar_to_N b).
  apply (forall_below (fun n => P (Base64.uchar n)) 256 H).
  pose proof (to_N_bounded b). lia.
Qed.

Lemma forall_byte2 (P : byte -> byte -> bool) :
  forallb (fun n => forallb (fun m => P (Base64.uchar n) (Base64.uchar m)) (below 256))
          (below 256) = true ->
  forall a b, P a b = true.
Proof.
  intros H a. apply forall_byte. revert a. apply forall_byte. exact H.
Qed.

Lemma byte_eqb_eq (a b : byte) : Byte.eqb a b = true <-> a = b.
Proof.
  split; [apply byte_dec_bl | intros ->; apply byte_dec_lb; reflexivity].
Qed.

(** ** Base64: decoding what the encoder wrote *)

Module Base64Facts.
Import Base64 Base64Check.

Lemma sextet_ok_all n : (n < 64)%N -> sextet_ok n = true.
Proof. apply (forall_below sextet_ok 64). vm_compute. reflexivity. Qed.

Lemma a2b_b2a n : (n < 64)%N -> table_a2b_base64 (b2a n) = n.
Proof.
  intros H. apply sextet_ok_all in H. unfold sextet_ok in H.
  rewrite !andb_true_iff in H. now apply N.eqb_eq.
Qed.

Lemma b2a_not_pad n : (n < 64)%N -> Byte.eqb (b2a n) BASE64_PAD = false.
Proof.
  intros H. apply sextet_ok_all in H. unfold sextet_ok in H.
  rewrite !andb_true_iff in H. now apply negb_true_iff.
Qed.

Lemma b2a_ascii n : (n < 64)%N -> (to_N (b2a n) <? 128)%N = true.
Proof.
  intros H. apply sextet_ok_all in H. unfold sextet_ok in H.
  now rewrite !andb_true_iff in H.
Qed.

Lemma pair_ok_all a b : pair_ok a b = true.
Proof. apply forall_byte2. vm_compute. reflexivity. Qed.


Lemma pair_facts a b :
  (s1 a < 64 /\ s2 a b < 64 /\ s3 a b < 64 /\ s4 a < 64
   /\ s2_last a < 64 /\ s3_last a < 64)%N
  /\ uchar (N.lor (N.shiftl (s1 a) 2) (N.shiftr (s2 a b) 4)) = a
  /\ uchar (N.lor (N.shiftl (s1 a) 2) (N.shiftr (s2_last a) 4)) = a
  /\ N.land (s2 a b) 15 = N.shiftr (to_N b) 4
  /\ uchar (N.lor (N.shiftl (N.shiftr (to_N a) 4) 4) (N.shiftr (s3 a b) 2)) = a
  /\ uchar (N.lor (N.shiftl (N.shiftr (to_N a) 4) 4) (N.shiftr (s3_last a) 2)) = a
  /\ N.land (s3 a b) 3 = N.shiftr (to_N b) 6
  /\ uchar (N.lor (N.shiftl (N.shiftr (to_N a) 6) 6) (s4 a)) = a.
Proof.
  pose proof (pair_ok_all a b) as H. unfold pair_ok in H.
  rewrite !andb_true_iff, !N.ltb_lt, !N.eqb_eq, !byte_eqb_eq in H.
  intuition.
Qed.

(** One step of the decoder on a character the encoder wrote. *)
Lemma a2b_loop_sextet q lc pads n data :
  (n < 64)%N ->
  a2b_loop q lc pads (b2a n :: data) =
  if (q =? 0)%N then a2b_loop 1 n 0 data
  else if (q =? 1)%N then
    emit (uchar (N.lor (N.shiftl lc 2) (N.shiftr n 4))) (a2b_loop 2 (N.land n 15) 0 data)
  else if (q =? 2)%N then
    emit (uchar (N.lor (N.shiftl lc 4) (N.shiftr n 2))) (a2b_loop 3 (N.land n 3) 0 data)
  else emit (uchar (N.lor (N.shiftl lc 6) n)) (a2b_loop 0 0 0 data).
Proof.
  intros Hn. cbn [a2b_loop]. rewrite (b2a_not_pad n Hn), (a2b_b2a n Hn).
  destruct (64 <=? n)%N eqn:E; [apply N.leb_le in E; lia | reflexivity].
Qed.

Lemma a2b_full_group a b c rest :
  a2b_loop 0 0 0 (b2a (s1 a) :: b2a (s2 a b) :: b2a (s3 b c) :: b2a (s4 c) :: rest)
  = emit a (emit b (emit c (a2b_loop 0 0 0 rest))).
Proof.
  destruct (pair_facts a b) as ((Ha1 & Ha2 & _) & Hb1 & _ & Hl2 & _).
  destruct (pair_facts b c) as ((_ & _ & Hb3 & _) & _ & _ & _ & Hb2 & _ & Hl3 & _).
  destruct (pair_facts c c) as ((_ & _ & _ & Hc4 & _) & _ & _ & _ & _ & _ & _ & Hc).
  rewrite !a2b_loop_sextet by assumption. cbn [N.eqb Pos.eqb].
  rewrite Hb1, Hl2, Hb2, Hl3, Hc. reflexivity.
Qed.

Lemma a2b_one_byte a :
  a2b_loop 0 0 0 [b2a (s1 a); b2a (s2_last a); BASE64_PAD; BASE64_PAD] = Ok [a].
Proof.
  destruct (pair_facts a a) as ((Ha1 & _ & _ & _ & Ha2 & _) & _ & Hb1 & _).
  rewrite !a2b_loop_sextet by assumption. cbn [N.eqb Pos.eqb].
  rewrite Hb1. reflexivity.
Qed.

Lemma a2b_two_bytes a b :
  a2b_loop 0 0 0 [b2a (s1 a); b2a (s2 a b); b2a (s3_last b); BASE64_PAD] = Ok [a; b].
Proof.
  destruct (pair_facts a b) as ((Ha1 & Ha2 & _) & Hb1 & _ & Hl2 & _).
  destruct (pair_facts b b) as ((_ & _ & _ & _ & _ & Hb3) & _ & _ & _ & _ & Hb2 & _).
  rewrite !a2b_loop_sextet by assumption. cbn [N.eqb Pos.eqb].
  rewrite Hb1, Hl2, Hb2. reflexivity.
Qed.

(** Induction on a list three elements at a time. *)
Lemma list_ind3 {A} (P : list A -> Prop) :
  P [] -> (forall a, P [a]) -> (forall a b, P [a; b]) ->
  (forall a b c l, P l -> P (a :: b :: c :: l)) ->
  forall l, P l.
Proof.
  intros H0 H1 H2 H3 l.
  enough (P l /\ (forall a, P (a :: l)) /\ (forall a b, P (a :: b :: l))) by tauto.
  induction l as [| x l (IH0 & IH1 & IH2)]; [tauto |].
  repeat split; auto.
Qed.

(** [a2b_base64] inverts [b2a_base64]. *)
Lemma a2b_b2a_base64 (data : bytes) : a2b_base64 (b2a_base64 data) = Ok data.
Proof.
  unfold a2b_base64. induction data as [| a | a b | a b c rest IH] using list_ind3.
  - reflexivity.
  - apply a2b_one_byte.
  - apply a2b_two_bytes.
  - change (b2a_base64 (a :: b :: c :: rest))
      with (b2a (s1 a) :: b2a (s2 a b) :: b2a (s3 b c) :: b2a (s4 c) :: b2a_base64 rest).
    rewrite a2b_full_group, IH. reflexivity.
Qed.

(** The encoder writes ASCII only. *)
Lemma b2a_base64_ascii (data : bytes) :
  forallb (fun c => (to_N c <? 128)%N) (b2a_base64 data) = true.
Proof.
  induction data as [| a | a b | a b c rest IH] using list_ind3.
  - reflexivity.
  - destruct (pair_facts a a) as ((Ha1 & _ & _ & _ & Ha2 & _) & _).
    cbn [b2a_base64 forallb]. fold (s1 a) (s2_last a).
    rewrite (b2a_ascii _ Ha1), (b2a_ascii _ Ha2). reflexivity.
  - destruct (pair_facts a b) as ((Ha1 & Ha2 & _) & _).
    destruct (pair_facts b b) as ((_ & _ & _ & _ & _ & Hb3) & _).
    cbn [b2a_base64 forallb]. fold (s1 a) (s2 a b) (s3_last b).
    rewrite (b2a_ascii _ Ha1), (b2a_ascii _ Ha2), (b2a_ascii _ Hb3). reflexivity.
  - destruct (pair_facts a b) as ((Ha1 & Ha2 & _) & _).
    destruct (pair_facts b c) as ((_ & _ & Hb3 & _) & _).
    destruct (pair_facts c c) as ((_ & _ & _ & Hc4 & _) & _).
    change (b2a_base64 (a :: b :: c :: rest))
      with (b2a (s1 a) :: b2a (s2 a b) :: b2a (s3 b c) :: b2a (s4 c) :: b2a_base64 rest).
    cbn [forallb].
    rewrite (b2a_ascii _ Ha1), (b2a_ascii _ Ha2), (b2a_ascii _ Hb3), (b2a_ascii _ Hc4), IH.
    reflexivity.
Qed.

End Base64Facts.

(** [b64decode] of the text [b64encode(p).decode("utf-8")] is [p]. *)
Lemma b64decode_b64encode_str (p : bytes) :
  Base64.b64decode (FStr (Base64.decode_utf8 (Base64.b64encode p))) = Ok p.
Proof.
  unfold Base64.b64decode, Base64.decode_utf8, Base64.b64encode, Base64.encode_ascii.
  rewrite list_byte_of_string_of_list_byte, Base64Facts.b2a_base64_ascii.
  apply Base64Facts.a2b_b2a_base64.
Qed.

Lemma b64decode_b64encode_bytes (p : bytes) :
  Base64.b64decode (FBytes (Base64.b64encode p)) = Ok p.
Proof. apply Base64Facts.a2b_b2a_base64. Qed.

(** ** [bytes.find] *)

Lemma starts_with_iff (needle hay : bytes) :
  starts_with needle hay = true <-> exists post, hay = needle ++ post.
Proof.
  revert hay. induction needle as [| n needle IH]; intros hay; cbn [starts_with].
  - split; [intros _; now exists hay | reflexivity].
  - destruct hay as [| h hay].
    + split; [discriminate | intros (post & H); discriminate].
    + rewrite andb_true_iff, byte_eqb_eq, IH. split.
      * intros (-> & post & ->). now exists post.
      * intros (post & H). injection H as -> ->. split; [reflexivity | now exists post].
Qed.

Lemma occurs_at_0 (needle hay : bytes) :
  occurs_at needle hay 0 <-> starts_with needle hay = true.
Proof.
  rewrite starts_with_iff. unfold occurs_at. split.
  - intros (pre & post & -> & Hl). destruct pre; [now exists post | discriminate].
  - intros (post & ->). now exists [], post.
Qed.

Lemma occurs_at_S (needle : bytes) h hay j :
  occurs_at needle (h :: hay) (S j) <-> occurs_at needle hay j.
Proof.
  unfold occurs_at. split.
  - intros (pre & post & H & Hl). destruct pre as [| x pre]; [discriminate |].
    injection H as -> ->. injection Hl as <-. now exists pre, post.
  - intros (pre & post & -> & <-). now exists (h :: pre), post.
Qed.

Lemma occurs_at_nil (needle : bytes) j :
  occurs_at needle [] j -> j = 0%nat.
Proof.
  intros (pre & post & H & Hl). destruct pre; [now subst | discriminate].
Qed.

(** [find_from] returns the first index (shifted by [i]), or -1 when there is
    no occurrence. *)
Lemma find_from_spec (needle hay : bytes) (i : Z) :
  (find_from needle hay i = -1 /\ forall j, ~ occurs_at needle hay j)
  \/ (exists k, find_from needle hay i = i + Z.of_nat k /\ first_occurrence needle hay k).
Proof.
  revert i. induction hay as [| h hay IH]; intros i; cbn [find_from].
  - destruct (starts_with needle []) eqn:E.
    + right. exists 0%nat. split; [lia |]. split; [now apply occurs_at_0 | lia].
    + left. split; [reflexivity |]. intros j Hj.
      pose proof (occurs_at_nil _ _ Hj); subst j.
      apply occurs_at_0 in Hj. congruence.
  - destruct (starts_with needle (h :: hay)) eqn:E.
    + right. exists 0%nat. split; [lia |]. split; [now apply occurs_at_0 | lia].
    + destruct (IH (i + 1)) as [(Hf & Hno) | (k & Hf & Hocc & Hmin)].
      * left. split; [exact Hf |]. intros [| j] Hj.
        -- apply occurs_at_0 in Hj. congruence.
        -- apply occurs_at_S in Hj. exact (Hno j Hj).
      * right. exists (S k). split; [lia |]. split.
        -- now apply occurs_at_S.
        -- intros [| j] Hj.
           ++ apply occurs_at_0 in Hj. congruence.
           ++ apply occurs_at_S in Hj. apply Hmin in Hj. lia.
Qed.

Lemma bytes_find_absent (hay needle : bytes) :
  (forall j, ~ occurs_at needle hay j) -> bytes_find hay needle = -1.
Proof.
  intros Hno. unfold bytes_find.
  destruct (find_from_spec needle hay 0) as [(Hf & _) | (k & _ & Hocc & _)];
    [exact Hf | destruct (Hno k Hocc)].
Qed.

Lemma bytes_find_first (hay needle : bytes) (i : nat) :
  first_occurrence needle hay i -> bytes_find hay needle = Z.of_nat i.
Proof.
  intros (Hocc & Hmin). unfold bytes_find.
  destruct (find_from_spec needle hay 0) as [(_ & Hno) | (k & Hf & Hocc' & Hmin')].
  - destruct (Hno i Hocc).
  - apply Hmin in Hocc'. apply Hmin' in Hocc. rewrite Hf. lia.
Qed.

Lemma bytes_find_sound (hay needle : bytes) (i : nat) :
  bytes_find hay needle = Z.of_nat i -> first_occurrence needle hay i.
Proof.
  unfold bytes_find. intros H.
  destruct (find_from_spec needle hay 0) as [(Hf & _) | (k & Hf & Hfirst)].
  - lia.
  - assert (k = i) by lia. now subst.
Qed.

(** ** [_get_mp4_duration] *)

Lemma py_slice_length {A} (l : list A) (i : nat) (n : Z) :
  0 <= n ->
  List.length (py_slice l (Z.of_nat i + n) (Z.of_nat i + n + 4))
  = Nat.min 4 (List.length l - (i + Z.to_nat n)).
Proof.
  intros Hn. unfold py_slice. rewrite length_firstn, length_skipn.
  replace (Z.to_nat (Z.of_nat i + n + 4 - (Z.of_nat i + n))) with 4%nat by lia.
  replace (Z.to_nat (Z.of_nat i + n)) with (i + Z.to_nat n)%nat by lia. reflexivity.
Qed.

Lemma py_slice_exact {A} (pre mid post : list A) (i j : Z) :
  i = py_len pre -> j = i + py_len mid ->
  py_slice (pre ++ mid ++ post) i j = mid.
Proof.
  unfold py_slice, py_len. intros -> ->.
  rewrite Nat2Z.id.
  replace (Z.to_nat (Z.of_nat (List.length pre) + Z.of_nat (List.length mid)
                     - Z.of_nat (List.length pre))) with (List.length mid) by lia.
  rewrite skipn_app, skipn_all, Nat.sub_diag. cbn [skipn app].
  rewrite firstn_app, firstn_all, Nat.sub_diag. cbn [firstn]. apply app_nil_r.
Qed.

Lemma struct_unpack_short (b : bytes) :
  List.length b <> 4%nat -> struct_unpack_BE_I b = Raise struct_error.
Proof.
  destruct b as [| b0 [| b1 [| b2 [| b3 [| b4 b]]]]]; cbn; intros H;
    try reflexivity; congruence.
Qed.

Lemma get_mp4_duration_total (data : bytes) :
  exists q, SendVideo._get_mp4_duration data = Ok q.
Proof.
  unfold SendVideo._get_mp4_duration, rtry.
  destruct (SendVideo._get_mp4_duration_try data) as [q | e]; eexists; reflexivity.
Qed.

Lemma get_mp4_duration_absent (data : bytes) :
  (forall i, ~ occurs_at SendVideo.mvhd data i) ->
  SendVideo._get_mp4_duration data = Ok (0 # 1).
Proof.
  intros H. unfold SendVideo._get_mp4_duration, SendVideo._get_mp4_duration_try.
  rewrite (bytes_find_absent _ _ H). reflexivity.
Qed.

Lemma get_mp4_duration_truncated (data : bytes) (i : nat) :
  first_occurrence SendVideo.mvhd data i ->
  (List.length data < i + 24)%nat ->
  SendVideo._get_mp4_duration data = Ok (0 # 1).
Proof.
  intros Hfirst Hlen.
  unfold SendVideo._get_mp4_duration, SendVideo._get_mp4_duration_try.
  rewrite (bytes_find_first _ _ _ Hfirst).
  destruct (Z.of_nat i =? -1) eqn:E; [reflexivity |].
  rewrite (struct_unpack_short (py_slice data (Z.of_nat i + 20) (Z.of_nat i + 24))).
  - destruct (struct_unpack_BE_I _); reflexivity.
  - replace (Z.of_nat i + 24) with (Z.of_nat i + 20 + 4) by lia.
    rewrite py_slice_length by lia. lia.
Qed.

Lemma get_mp4_duration_header (pre skip post : bytes) (t0 t1 t2 t3 d0 d1 d2 d3 : byte) :
  first_occurrence SendVideo.mvhd
    (pre ++ SendVideo.mvhd ++ skip ++ [t0; t1; t2; t3; d0; d1; d2; d3] ++ post)
    (List.length pre) ->
  List.length skip = 12%nat ->
  SendVideo._get_mp4_duration
    (pre ++ SendVideo.mvhd ++ skip ++ [t0; t1; t2; t3; d0; d1; d2; d3] ++ post)
  = Ok (if be32 t0 t1 t2 t3 =? 0 then 0 # 1
        else Qred (be32 d0 d1 d2 d3 # Z.to_pos (be32 t0 t1 t2 t3))).
Proof.
  intros Hfirst Hskip.
  unfold SendVideo._get_mp4_duration, SendVideo._get_mp4_duration_try.
  rewrite (bytes_find_first _ _ _ Hfirst).
  destruct (Z.of_nat (List.length pre) =? -1) eqn:E; [apply Z.eqb_eq in E; lia |].
  set (i := Z.of_nat (List.length pre)).
  assert (H1 : py_slice (pre ++ SendVideo.mvhd ++ skip
                         ++ [t0; t1; t2; t3; d0; d1; d2; d3] ++ post) (i + 16) (i + 20)
               = [t0; t1; t2; t3]).
  { change (pre ++ SendVideo.mvhd ++ skip ++ [t0; t1; t2; t3; d0; d1; d2; d3] ++ post)
      with (pre ++ SendVideo.mvhd ++ skip ++ [t0; t1; t2; t3] ++ [d0; d1; d2; d3] ++ post).
    replace (pre ++ SendVideo.mvhd ++ skip ++ [t0; t1; t2; t3] ++ [d0; d1; d2; d3] ++ post)
      with ((pre ++ SendVideo.mvhd ++ skip) ++ [t0; t1; t2; t3] ++ [d0; d1; d2; d3] ++ post)
      by now rewrite <- !app_assoc.
    apply py_slice_exact; unfold py_len, SendVideo.mvhd;
      rewrite ?length_app, ?Hskip; cbn [List.length];
      subst i; lia. }
  assert (H2 : py_slice (pre ++ SendVideo.mvhd ++ skip
                         ++ [t0; t1; t2; t3; d0; d1; d2; d3] ++ post) (i + 20) (i + 24)
               = [d0; d1; d2; d3]).
  { change (pre ++ SendVideo.mvhd ++ skip ++ [t0; t1; t2; t3; d0; d1; d2; d3] ++ post)
      with (pre ++ SendVideo.mvhd ++ skip ++ [t0; t1; t2; t3] ++ [d0; d1; d2; d3] ++ post).
    replace (pre ++ SendVideo.mvhd ++ skip ++ [t0; t1; t2; t3] ++ [d0; d1; d2; d3] ++ post)
      with ((pre ++ SendVideo.mvhd ++ skip ++ [t0; t1; t2; t3]) ++ [d0; d1; d2; d3] ++ post)
      by now rewrite <- !app_assoc.
    apply py_slice_exact; unfold py_len, SendVideo.mvhd;
      rewrite ?length_app, ?Hskip; cbn [List.length];
      subst i; lia. }
  rewrite H1, H2. cbn [struct_unpack_BE_I rbind]. unfold py_truediv.
  destruct (be32 t0 t1 t2 t3 =? 0); reflexivity.
Qed.

(** ** The uploaders *)

Lemma uploader_file_data_b64 (p : bytes) :
  uploader_file_data (FStr (Base64.decode_utf8 (Base64.b64encode p))) = Ok p.
Proof. apply b64decode_b64encode_str. Qed.

Lemma py_len_zero {A} (l : list A) : (py_len l =? 0) = true <-> l = [].
Proof.
  unfold py_len. rewrite Z.eqb_eq. destruct l; cbn [List.length]; split;
    intros H; try reflexivity; try discriminate; lia.
Qed.

Lemma py_len_nonzero {A} (l : list A) : l <> [] -> (py_len l =? 0) = false.
Proof.
  intros H. destruct (py_len l =? 0) eqn:E; [| reflexivity].
  apply py_len_zero in E. contradiction.
Qed.

Lemma dict_get_set_same {V} (k : string) (v : V) (d : list (string * V)) :
  dict_get k (dict_set k v d) = Some v.
Proof.
  induction d as [| [k' v'] d IH]; cbn [dict_set dict_get].
  - now rewrite String.eqb_refl.
  - destruct (String.eqb k k') eqn:E; cbn [dict_get]; rewrite ?E, ?String.eqb_refl; auto.
Qed.

Lemma dict_get_set_other {V} (k k' : string) (v : V) (d : list (string * V)) :
  String.eqb k' k = false -> dict_get k' (dict_set k v d) = dict_get k' d.
Proof.
  intros Hk. induction d as [| [k0 v0] d IH]; cbn [dict_set dict_get].
  - now rewrite Hk.
  - destruct (String.eqb k k0) eqn:E; cbn [dict_get].
    + apply String.eqb_eq in E. subst k0. now rewrite Hk.
    + now rewrite IH.
Qed.

(** *** Video *)

Lemma video_init (fd : file_input) (p : bytes) (q : Q) :
  uploader_file_data fd = Ok p ->
  SendVideo._get_mp4_duration p = Ok q ->
  SendVideo.VideoUploader_init fd
  = Ok {| SendVideo.file_data := p; SendVideo.file_size := py_len p;
          SendVideo.duration := q |}.
Proof.
  intros Hp Hq. unfold SendVideo.VideoUploader_init. rewrite Hp. cbn [rbind].
  rewrite Hq. reflexivity.
Qed.

Lemma video_upload_empty w self rp fd t :
  uploader_file_data fd = Ok [] ->
  SendVideo.upload_file w self rp fd t = (Ok (code_dict (-1)), t).
Proof.
  intros Hp. destruct (get_mp4_duration_total []) as (q & Hq).
  unfold SendVideo.upload_file, bind, lift. rewrite (video_init _ _ _ Hp Hq).
  reflexivity.
Qed.

Lemma video_upload_run w self rp fd p q t :
  uploader_file_data fd = Ok p ->
  SendVideo._get_mp4_duration p = Ok q ->
  p <> [] ->
  SendVideo.upload_file w self rp fd t
  = (Ok (upload_result (upload_reply w (video_upload_request w self rp p q))),
     t ++ [video_upload_request w self rp p q]).
Proof.
  intros Hp Hq Hne.
  unfold SendVideo.upload_file, bind, lift. rewrite (video_init _ _ _ Hp Hq).
  cbn [SendVideo.file_size SendVideo.file_data]. rewrite (py_len_nonzero _ Hne).
  unfold try_except, bind, call, lift, ret.
  fold (video_upload_request w self rp p q).
  destruct (upload_reply w (video_upload_request w self rp p q)) as [| st [j |]];
    reflexivity.
Qed.

(** *** Image *)

Lemma image_init (fd : file_input) (p : bytes) :
  uploader_file_data fd = Ok p ->
  SendImage.ImageUploader_init fd
  = Ok {| SendImage.file_data := p; SendImage.file_size := py_len p;
          SendImage._image := None |}.
Proof.
  intros Hp. unfold SendImage.ImageUploader_init. rewrite Hp. reflexivity.
Qed.

Lemma image_dimensions_closed w p :
  pil_open w p = None ->
  SendImage.dimensions w
    {| SendImage.file_data := p; SendImage.file_size := py_len p;
       SendImage._image := None |}
  = Ok ((0, 0), {| SendImage.file_data := p; SendImage.file_size := py_len p;
                   SendImage._image := None |}).
Proof.
  intros H. unfold SendImage.dimensions, SendImage.image.
  cbn [SendImage._image SendImage.file_data]. rewrite H. reflexivity.
Qed.

Lemma image_dimensions_open w p sz :
  pil_open w p = Some sz ->
  SendImage.dimensions w
    {| SendImage.file_data := p; SendImage.file_size := py_len p;
       SendImage._image := None |}
  = Ok (sz, {| SendImage.file_data := p; SendImage.file_size := py_len p;
               SendImage._image := Some {| SendImage.size := sz |} |}).
Proof.
  intros H. unfold SendImage.dimensions, SendImage.image.
  cbn [SendImage._image SendImage.file_data]. rewrite H. reflexivity.
Qed.

Lemma image_upload_empty w self rp fd t :
  uploader_file_data fd = Ok [] ->
  SendImage.upload_file w self rp fd t = (Ok (code_dict (-1)), t).
Proof.
  intros Hp. unfold SendImage.upload_file, bind, lift. rewrite (image_init _ _ Hp).
  reflexivity.
Qed.

Lemma image_upload_unreadable w self rp fd p t :
  uploader_file_data fd = Ok p ->
  pil_open w p = None ->
  SendImage.upload_file w self rp fd t = (Ok (code_dict (-1)), t).
Proof.
  intros Hp Hpil. unfold SendImage.upload_file, bind, lift. rewrite (image_init _ _ Hp).
  cbn [SendImage.file_size]. destruct (py_len p =? 0); [reflexivity |].
  rewrite (image_dimensions_closed _ _ Hpil). reflexivity.
Qed.

Lemma image_upload_zero_dimension w self rp fd p width height t :
  uploader_file_data fd = Ok p ->
  pil_open w p = Some (width, height) ->
  width = 0 \/ height = 0 ->
  SendImage.upload_file w self rp fd t = (Ok (code_dict (-1)), t).
Proof.
  intros Hp Hpil Hz. unfold SendImage.upload_file, bind, lift. rewrite (image_init _ _ Hp).
  cbn [SendImage.file_size]. destruct (py_len p =? 0); [reflexivity |].
  rewrite (image_dimensions_open _ _ _ Hpil).
  assert (E : (width =? 0) || (height =? 0) = true).
  { apply orb_true_iff. rewrite !Z.eqb_eq. exact Hz. }
  rewrite E. reflexivity.
Qed.

Lemma image_upload_run w self rp fd p width height t :
  uploader_file_data fd = Ok p ->
  p <> [] ->
  pil_open w p = Some (width, height) ->
  width <> 0 -> height <> 0 ->
  SendImage.upload_file w self rp fd t
  = (Ok (upload_result (upload_reply w (image_upload_request w self rp p width height))),
     t ++ [image_upload_request w self rp p width height]).
Proof.
  intros Hp Hne Hpil Hw Hh.
  unfold SendImage.upload_file, bind, lift. rewrite (image_init _ _ Hp).
  cbn [SendImage.file_size]. rewrite (py_len_nonzero _ Hne).
  rewrite (image_dimensions_open _ _ _ Hpil).
  assert (E : (width =? 0) || (height =? 0) = false).
  { apply orb_false_iff. rewrite !Z.eqb_neq. tauto. }
  rewrite E. cbn [SendImage.file_data].
  unfold try_except, bind, call, lift, ret.
  fold (image_upload_request w self rp p width height).
  destruct (upload_reply w (image_upload_request w self rp p width height))
    as [| st [j |]]; reflexivity.
Qed.

(** ** Path issuance *)

Lemma video_issue_run w self filename fd ch decoded t :
  Base64.b64decode (FStr (base64_text fd)) = Ok decoded ->
  SendVideo.issue_resource_path w self filename fd ch t
  = (issue_result (issue_reply w (video_issue_request self filename (py_len decoded) ch)),
     t ++ [video_issue_request self filename (py_len decoded) ch]).
Proof.
  intros Hd. unfold SendVideo.issue_resource_path, SendVideo.issue_data, bind, lift.
  fold (base64_text fd). rewrite Hd. cbn [rbind].
  unfold call. fold issue_headers. fold (video_issue_request self filename (py_len decoded) ch).
  destruct (issue_reply w (video_issue_request self filename (py_len decoded) ch))
    as [| st [ri |]]; reflexivity.
Qed.

Lemma video_issue_raise w self filename fd ch e t :
  Base64.b64decode (FStr (base64_text fd)) = Raise e ->
  SendVideo.issue_resource_path w self filename fd ch t = (Raise e, t).
Proof.
  intros Hd. unfold SendVideo.issue_resource_path, SendVideo.issue_data, bind, lift.
  fold (base64_text fd). rewrite Hd. reflexivity.
Qed.

Lemma image_issue_run w self filename fd ch decoded t :
  Base64.b64decode (FStr (base64_text fd)) = Ok decoded ->
  SendImage.issue_resource_path w self filename fd ch t
  = (issue_result
       (issue_reply w (image_issue_request self filename (base64_text fd) (py_len decoded) ch)),
     t ++ [image_issue_request self filename (base64_text fd) (py_len decoded) ch]).
Proof.
  intros Hd. unfold SendImage.issue_resource_path, SendImage.issue_data, bind, lift.
  fold (base64_text fd). rewrite Hd. cbn [rbind].
  unfold call. fold issue_headers.
  fold (image_issue_request self filename (base64_text fd) (py_len decoded) ch).
  destruct (issue_reply w
              (image_issue_request self filename (base64_text fd) (py_len decoded) ch))
    as [| st [ri |]]; reflexivity.
Qed.

Lemma image_issue_raise w self filename fd ch e t :
  Base64.b64decode (FStr (base64_text fd)) = Raise e ->
  SendImage.issue_resource_path w self filename fd ch t = (Raise e, t).
Proof.
  intros Hd. unfold SendImage.issue_resource_path, SendImage.issue_data, bind, lift.
  fold (base64_text fd). rewrite Hd. reflexivity.
Qed.

(** ** [main] *)

Lemma py_int_channel : py_int "307464837" = Ok 307464837.
Proof. reflexivity. Qed.

(** [main] up to the check of the issued code. *)
Lemma video_main_unfold w file t :
  local_file w = Some file -> file <> [] ->
  SendVideo.main w t
  = match issue_result (issue_reply w (video_main_issue_request w file)) with
    | Raise e => (Raise e, t ++ [video_main_issue_request w file])
    | Ok ri =>
        if py_ne_200 (ri_code ri) then (Ok JNull, t ++ [video_main_issue_request w file])
        else
          match ri_resourcePath ri with
          | None => (Raise KeyError, t ++ [video_main_issue_request w file])
          | Some rp =>
              bind (SendVideo.upload_file_options w (video_main_api w) rp)
                (fun _ => bind (SendVideo.upload_file w (video_main_api w) rp (FBytes file))
                            (fun _ => ret JNull))
                (t ++ [video_main_issue_request w file])
          end
    end.
Proof.
  intros Hf Hne. unfold SendVideo.main. rewrite Hf, (py_len_nonzero _ Hne).
  unfold bind at 1. unfold lift at 1. rewrite py_int_channel.
  unfold bind at 1.
  rewrite (video_issue_run w _ "video.mp4" _ 307464837 file t)
    by apply b64decode_b64encode_str.
  fold (video_main_api w). fold (video_main_issue_request w file).
  destruct (issue_result (issue_reply w (video_main_issue_request w file))) as [ri | e];
    [| reflexivity].
  destruct (py_ne_200 (ri_code ri)); [reflexivity |].
  destruct (ri_resourcePath ri); reflexivity.
Qed.

Lemma image_main_unfold w file t :
  local_file w = Some file -> file <> [] ->
  SendImage.main w t
  = match issue_result (issue_reply w (image_main_issue_request w file)) with
    | Raise e => (Raise e, t ++ [image_main_issue_request w file])
    | Ok ri =>
        if py_ne_200 (ri_code ri) then (Ok JNull, t ++ [image_main_issue_request w file])
        else
          match ri_resourcePath ri with
          | None => (Raise KeyError, t ++ [image_main_issue_request w file])
          | Some rp =>
              bind (SendImage.upload_file_options w (image_main_api w) rp)
                (fun _ => bind (SendImage.upload_file w (image_main_api w) rp (FBytes file))
                            (fun _ => ret JNull))
                (t ++ [image_main_issue_request w file])
          end
    end.
Proof.
  intros Hf Hne. unfold SendImage.main. rewrite Hf, (py_len_nonzero _ Hne).
  unfold bind at 1. unfold lift at 1. rewrite py_int_channel.
  unfold bind at 1.
  rewrite (image_issue_run w _ "image.png" _ 307464837 file t)
    by apply b64decode_b64encode_str.
  fold (image_main_api w). cbn [base64_text]. fold (image_main_issue_request w file).
  destruct (issue_result (issue_reply w (image_main_issue_request w file))) as [ri | e];
    [| reflexivity].
  destruct (py_ne_200 (ri_code ri)); [reflexivity |].
  destruct (ri_resourcePath ri); reflexivity.
Qed.

(** The preflight and what follows it. *)
Lemma video_after_preflight w self rp file t :
  bind (SendVideo.upload_file_options w self rp)
    (fun _ => bind (SendVideo.upload_file w self rp (FBytes file)) (fun _ => ret JNull)) t
  = match options_reply w (preflight_request (SendVideo.storage_url self) rp) with
    | TransportFailure =>
        (Raise RequestException, t ++ [preflight_request (SendVideo.storage_url self) rp])
    | Response _ _ =>
        main_after_upload
          (SendVideo.upload_file w self rp (FBytes file)
             (t ++ [preflight_request (SendVideo.storage_url self) rp]))
    end.
Proof.
  unfold SendVideo.upload_file_options, bind at 1 2, call.
  fold (preflight_request (SendVideo.storage_url self) rp).
  destruct (options_reply w (preflight_request (SendVideo.storage_url self) rp))
    as [| st b]; [reflexivity |].
  unfold ret at 1, bind, main_after_upload.
  destruct (SendVideo.upload_file w self rp (FBytes file) _) as [[j | e] t']; reflexivity.
Qed.

Lemma image_after_preflight w self rp file t :
  bind (SendImage.upload_file_options w self rp)
    (fun _ => bind (SendImage.upload_file w self rp (FBytes file)) (fun _ => ret JNull)) t
  = match options_reply w (preflight_request (SendImage.storage_url self) rp) with
    | TransportFailure =>
        (Raise RequestException, t ++ [preflight_request (SendImage.storage_url self) rp])
    | Response _ _ =>
        main_after_upload
          (SendImage.upload_file w self rp (FBytes file)
             (t ++ [preflight_request (SendImage.storage_url self) rp]))
    end.
Proof.
  unfold SendImage.upload_file_options, bind at 1 2, call.
  fold (preflight_request (SendImage.storage_url self) rp).
  destruct (options_reply w (preflight_request (SendImage.storage_url self) rp))
    as [| st b]; [reflexivity |].
  unfold ret at 1, bind, main_after_upload.
  destruct (SendImage.upload_file w self rp (FBytes file) _) as [[j | e] t']; reflexivity.
Qed.

(** [str] of an int reads back as the int. *)
Lemma py_int_py_str_int (n : Z) : py_int (py_str_int n) = Ok n.
Proof.
  unfold py_int, py_str_int. rewrite NilZero.isi.
  - now rewrite DecimalZ.of_to.
  - destruct n as [| q | q]; cbn; try discriminate.
    intros H. injection H as H. exact (DecimalPos.Unsigned.to_uint_nonnil q H).
  - destruct n as [| q | q]; cbn; try discriminate.
    intros H. injection H as H. exact (DecimalPos.Unsigned.to_uint_nonnil q H).
Qed.

(** ** The claims *)

(** C1, as stated, fails: a non-empty payload without an [mvhd] box has
    duration zero, and [upload_file] issues the storage POST for it. *)
Lemma C1_counterexample :
  ~ (forall (w : world) (self : SendVideo.WorksVideoAPI) (rp : string) (p : bytes)
            (t : list request),
        SendVideo._get_mp4_duration p = Ok (0 # 1) ->
        snd (SendVideo.upload_file w self rp (FBytes p) t) = t).
Proof.
  intros H.
  specialize (H Mock.accepting Mock.video_api "/abc"%string [x41] [] eq_refl).
  vm_compute in H. discriminate H.
Qed.

(** C1, amended. For a video payload whose extracted duration is zero,
    [upload_file] stops before the network only when the payload is empty
    (result code -1, no request). A non-empty payload with duration zero is
    uploaded: exactly one request, the storage POST, is issued, and its
    [x-extras] header carries [recordtime] 0.0. *)
Theorem C1_zero_duration_video (w : world) (self : SendVideo.WorksVideoAPI)
    (rp : string) (p : bytes) (t : list request) :
  SendVideo._get_mp4_duration p = Ok (0 # 1) ->
  (p = [] -> SendVideo.upload_file w self rp (FBytes p) t = (Ok (code_dict (-1)), t))
  /\ (p <> [] ->
      exists req,
        snd (SendVideo.upload_file w self rp (FBytes p) t) = t ++ [req]
        /\ is_upload req = true
        /\ dict_get "x-extras" (request_headers req)
           = Some (HJsonDumps
                     (JObj [ ("filesize", JInt (py_len p));
                             ("filename", JStr (basename rp));
                             ("resourcepath", JStr rp);
                             ("recordtime", JFloat (0 # 1)) ]%string))).
Proof.
  intros Hq. split.
  - intros ->. now apply video_upload_empty.
  - intros Hne. exists (video_upload_request w self rp p (0 # 1)).
    rewrite (video_upload_run w self rp (FBytes p) p (0 # 1) t eq_refl Hq Hne).
    repeat split.
Qed.

(** C1 (amended) on a one-byte video payload, which has no [mvhd] box. *)
Lemma C1_zero_duration_video_witness :
  exists req,
    snd (SendVideo.upload_file Mock.accepting Mock.video_api "/abc" (FBytes [x41]) [])
    = [] ++ [req]
    /\ is_upload req = true
    /\ dict_get "x-extras" (request_headers req)
       = Some (HJsonDumps
                 (JObj [ ("filesize", JInt (py_len [x41]));
                         ("filename", JStr (basename "/abc"));
                         ("resourcepath", JStr "/abc");
                         ("recordtime", JFloat (0 # 1)) ]%string)).
Proof.
  apply (C1_zero_duration_video Mock.accepting Mock.video_api "/abc" [x41] [] eq_refl).
  discriminate.
Defined.

(** C2. [upload_file] returns code -1 without any request when the payload is
    empty (both media kinds) and when the image's extracted width or height
    is zero. These are the only gates before the network: a non-empty video
    payload, and a non-empty image payload with both dimensions nonzero,
    reach the storage POST. *)
Theorem C2_validation_gates (w : world) (fd : file_input) (p : bytes) (rp : string)
    (t : list request) :
  uploader_file_data fd = Ok p ->
  (forall self, p = [] ->
     SendVideo.upload_file w self rp fd t = (Ok (code_dict (-1)), t))
  /\ (forall self, p = [] ->
        SendImage.upload_file w self rp fd t = (Ok (code_dict (-1)), t))
  /\ (forall self u width height u',
        SendImage.ImageUploader_init fd = Ok u ->
        SendImage.dimensions w u = Ok ((width, height), u') ->
        width = 0 \/ height = 0 ->
        SendImage.upload_file w self rp fd t = (Ok (code_dict (-1)), t))
  /\ (forall self, p <> [] ->
        exists req,
          is_upload req = true
          /\ snd (SendVideo.upload_file w self rp fd t) = t ++ [req])
  /\ (forall self u width height u',
        SendImage.ImageUploader_init fd = Ok u ->
        SendImage.dimensions w u = Ok ((width, height), u') ->
        p <> [] -> width <> 0 -> height <> 0 ->
        exists req,
          is_upload req = true
          /\ snd (SendImage.upload_file w self rp fd t) = t ++ [req]).
Proof.
  intros Hp.
  assert (Hdims : forall u width height u',
             SendImage.ImageUploader_init fd = Ok u ->
             SendImage.dimensions w u = Ok ((width, height), u') ->
             (pil_open w p = None /\ width = 0 /\ height = 0)
             \/ pil_open w p = Some (width, height)).
  { intros u width height u' Hu Hd. rewrite (image_init _ _ Hp) in Hu.
    injection Hu as <-. destruct (pil_open w p) as [sz |] eqn:E.
    - rewrite (image_dimensions_open _ _ _ E) in Hd. injection Hd as -> _. now right.
    - rewrite (image_dimensions_closed _ _ E) in Hd. injection Hd as <- <- _. now left. }
  split; [intros self ->; now apply video_upload_empty |].
  split; [intros self ->; now apply image_upload_empty |].
  split.
  { intros self u width height u' Hu Hd Hz.
    destruct (Hdims _ _ _ _ Hu Hd) as [(E & _) | E].
    - now apply (image_upload_unreadable w self rp fd p t).
    - now apply (image_upload_zero_dimension w self rp fd p width height t). }
  split.
  { intros self Hne. destruct (get_mp4_duration_total p) as (q & Hq).
    exists (video_upload_request w self rp p q).
    rewrite (video_upload_run w self rp fd p q t Hp Hq Hne). split; reflexivity. }
  intros self u width height u' Hu Hd Hne Hw Hh.
  destruct (Hdims _ _ _ _ Hu Hd) as [(_ & E & _) | E]; [contradiction |].
  exists (image_upload_request w self rp p width height).
  rewrite (image_upload_run w self rp fd p width height t Hp Hne E Hw Hh).
  split; reflexivity.
Qed.

(** C2 on a one-byte image PIL reports as 10 x 10, and on the empty text. *)
Lemma C2_validation_gates_witness :
  (exists req,
     is_upload req = true
     /\ snd (SendImage.upload_file Mock.accepting Mock.image_api "/abc" (FBytes [x41]) [])
        = [] ++ [req])
  /\ SendVideo.upload_file Mock.accepting Mock.video_api "/abc" (FStr "") []
     = (Ok (code_dict (-1)), []).
Proof.
  split.
  - destruct (C2_validation_gates Mock.accepting (FBytes [x41]) [x41] "/abc" [] eq_refl)
      as (_ & _ & _ & _ & H).
    apply (H Mock.image_api _ 10 10 _ eq_refl eq_refl); [discriminate | lia | lia].
  - destruct (C2_validation_gates Mock.accepting (FStr "") [] "/abc" [] eq_refl)
      as (H & _).
    apply H. reflexivity.
Defined.

(** C3, as stated, fails: [upload_file] never sees the original file name.
    In a run of [main] on [image.png] whose path issuance answers
    [resourcePath = "/abc"], the multipart body names the file [abc], and the
    original name occurs nowhere in it. *)
Lemma C3_counterexample :
  request_field "filename" (image_main_issue_request Mock.accepting [x41])
  = Some (JStr "image.png")
  /\ exists url h pa c data,
       snd (SendImage.main Mock.accepting [])
       = [ image_main_issue_request Mock.accepting [x41];
           preflight_request "https://storage.worksmobile.com" "/abc";
           POST_data url h pa c data ]
       /\ data = multipart_body SendImage.boundary "abc" "image/png" [x41]
       /\ data <> multipart_body SendImage.boundary "image.png" "image/png" [x41]
       /\ bytes_find data (encode_utf8 "image.png") = -1.
Proof.
  split; [reflexivity |].
  do 5 eexists. split; [vm_compute; reflexivity |].
  split; [vm_compute; reflexivity |].
  split; [vm_compute; discriminate | vm_compute; reflexivity].
Qed.

(** C3, amended. For every non-empty payload that passes the gates (for an
    image: both dimensions nonzero) and every resource path, the one request
    [upload_file] issues carries a multipart body with exactly one part: the
    opening boundary line, a Content-Disposition with [name="file"] and, as
    file name, the base name of the resource path, the content type of the
    media kind, an empty line, the payload and the closing boundary line. The
    boundary is the one the Content-Type header declares, and the
    Content-Length header is the decimal byte length of that body. *)
Theorem C3_multipart_body (w : world) (fd : file_input) (p : bytes) (rp : string)
    (t : list request) :
  uploader_file_data fd = Ok p ->
  p <> [] ->
  (forall self, exists url h pa c data,
      snd (SendVideo.upload_file w self rp fd t) = t ++ [POST_data url h pa c data]
      /\ data = multipart_body SendVideo.boundary (basename rp) "video/mp4" p
      /\ dict_get "Content-Type" h
         = Some (HStr ("multipart/form-data; boundary=" ++ SendVideo.boundary))
      /\ dict_get "Content-Length" h = Some (HStr (py_str_int (py_len data)))
      /\ py_int (py_str_int (py_len data)) = Ok (py_len data))
  /\ (forall self width height,
        pil_open w p = Some (width, height) -> width <> 0 -> height <> 0 ->
        exists url h pa c data,
          snd (SendImage.upload_file w self rp fd t) = t ++ [POST_data url h pa c data]
          /\ data = multipart_body SendImage.boundary (basename rp) "image/png" p
          /\ dict_get "Content-Type" h
             = Some (HStr ("multipart/form-data; boundary=" ++ SendImage.boundary))
          /\ dict_get "Content-Length" h = Some (HStr (py_str_int (py_len data)))
          /\ py_int (py_str_int (py_len data)) = Ok (py_len data)).
Proof.
  intros Hp Hne. split.
  - intros self. destruct (get_mp4_duration_total p) as (q & Hq).
    rewrite (video_upload_run w self rp fd p q t Hp Hq Hne).
    unfold video_upload_request. do 5 eexists.
    split; [reflexivity |]. split; [reflexivity |].
    split; [rewrite dict_get_set_other by reflexivity; reflexivity |].
    split; [apply dict_get_set_same | apply py_int_py_str_int].
  - intros self width height Hpil Hw Hh.
    rewrite (image_upload_run w self rp fd p width height t Hp Hne Hpil Hw Hh).
    unfold image_upload_request. do 5 eexists.
    split; [reflexivity |]. split; [reflexivity |].
    split; [rewrite dict_get_set_other by reflexivity; reflexivity |].
    split; [apply dict_get_set_same | apply py_int_py_str_int].
Qed.

(** C3 (amended) on a two-byte image and the resource path [/store/abc]. *)
Lemma C3_multipart_body_witness :
  exists url h pa c data,
    snd (SendImage.upload_file Mock.accepting Mock.image_api "/store/abc"
           (FBytes [x41; x42]) [])
    = [] ++ [POST_data url h pa c data]
    /\ data = multipart_body SendImage.boundary (basename "/store/abc") "image/png" [x41; x42]
    /\ dict_get "Content-Type" h
       = Some (HStr ("multipart/form-data; boundary=" ++ SendImage.boundary))
    /\ dict_get "Content-Length" h = Some (HStr (py_str_int (py_len data)))
    /\ py_int (py_str_int (py_len data)) = Ok (py_len data).
Proof.
  destruct (C3_multipart_body Mock.accepting (FBytes [x41; x42]) [x41; x42] "/store/abc" []
              eq_refl) as (_ & H); [discriminate |].
  apply (H Mock.image_api 10 10 eq_refl); lia.
Defined.

(** C4, as stated, fails: when the preflight fails at transport level, [main]
    ends with the exception after the preflight request, and no upload is
    attempted. *)
Lemma C4_counterexample :
  fst (SendImage.main Mock.preflight_down []) = Raise RequestException
  /\ existsb is_preflight (snd (SendImage.main Mock.preflight_down [])) = true
  /\ existsb is_upload (snd (SendImage.main Mock.preflight_down [])) = false
  /\ fst (SendVideo.main Mock.preflight_down []) = Raise RequestException
  /\ existsb is_upload (snd (SendVideo.main Mock.preflight_down [])) = false.
Proof. repeat split; vm_compute; reflexivity. Qed.

(** C4, amended. After a path issuance with code 200, whatever HTTP status
    the preflight answers with, the orchestrator goes on to the upload step:
    the rest of the run is [upload_file] on the issued path. A transport-level
    failure of the preflight is not caught: the run ends with the exception
    right after the preflight request, without an upload. Both media kinds. *)
Theorem C4_preflight_outcomes (w : world) (file : bytes) (rp : string) (t : list request) :
  local_file w = Some file ->
  file <> [] ->
  (forall st ri,
      issue_reply w (image_main_issue_request w file) = Response st (Some ri) ->
      py_ne_200 (ri_code ri) = false ->
      ri_resourcePath ri = Some rp ->
      let pre := preflight_request (SendImage.storage_url (image_main_api w)) rp in
      let t' := (t ++ [image_main_issue_request w file]) ++ [pre] in
      (forall status body,
          options_reply w pre = Response status body ->
          SendImage.main w t
          = main_after_upload
              (SendImage.upload_file w (image_main_api w) rp (FBytes file) t'))
      /\ (options_reply w pre = TransportFailure ->
          SendImage.main w t = (Raise RequestException, t')))
  /\ (forall st ri,
        issue_reply w (video_main_issue_request w file) = Response st (Some ri) ->
        py_ne_200 (ri_code ri) = false ->
        ri_resourcePath ri = Some rp ->
        let pre := preflight_request (SendVideo.storage_url (video_main_api w)) rp in
        let t' := (t ++ [video_main_issue_request w file]) ++ [pre] in
        (forall status body,
            options_reply w pre = Response status body ->
            SendVideo.main w t
            = main_after_upload
                (SendVideo.upload_file w (video_main_api w) rp (FBytes file) t'))
        /\ (options_reply w pre = TransportFailure ->
            SendVideo.main w t = (Raise RequestException, t'))).
Proof.
  intros Hf Hne. split; intros st ri Hissue Hcode Hrp pre t'.
  - rewrite (image_main_unfold w file t Hf Hne), Hissue. cbn [issue_result].
    rewrite Hcode, Hrp, image_after_preflight. fold pre.
    split; [intros status body Ho | intros Ho]; rewrite Ho; reflexivity.
  - rewrite (video_main_unfold w file t Hf Hne), Hissue. cbn [issue_result].
    rewrite Hcode, Hrp, video_after_preflight. fold pre.
    split; [intros status body Ho | intros Ho]; rewrite Ho; reflexivity.
Qed.

(** C4 (amended) on a preflight that answers 403. *)
Lemma C4_preflight_outcomes_witness :
  SendImage.main (Mock.with_options (Response 403 None) Mock.accepting) []
  = main_after_upload
      (SendImage.upload_file (Mock.with_options (Response 403 None) Mock.accepting)
         (image_main_api (Mock.with_options (Response 403 None) Mock.accepting))
         "/abc" (FBytes [x41])
         (([] ++ [image_main_issue_request
                    (Mock.with_options (Response 403 None) Mock.accepting) [x41]])
          ++ [preflight_request "https://storage.worksmobile.com" "/abc"])).
Proof.
  destruct (C4_preflight_outcomes (Mock.with_options (Response 403 None) Mock.accepting)
              [x41] "/abc" [] eq_refl) as (H & _); [discriminate |].
  destruct (H 200 {| ri_code := Some (JInt 200); ri_resourcePath := Some "/abc"%string |}
              eq_refl eq_refl eq_refl) as (Hgo & _).
  apply (Hgo 403 None). reflexivity.
Defined.

(** C5. [_get_mp4_duration] never raises: it always returns a value. It
    returns 0.0 when the marker [mvhd] does not occur, and when fewer than 24
    bytes follow the start of its first occurrence (truncated header).
    Otherwise it reads the big-endian 32-bit time scale at offset +16 and
    duration at offset +20 from the first occurrence and returns
    duration / time scale, or 0.0 when the time scale is zero. A box with
    time scale 1000 and duration 2500 gives 2.5, a payload without the marker
    gives 0.0. *)
Theorem C5_get_mp4_duration :
  (forall data, exists q, SendVideo._get_mp4_duration data = Ok q)
  /\ (forall data,
        (forall i, ~ occurs_at SendVideo.mvhd data i) ->
        SendVideo._get_mp4_duration data = Ok (0 # 1))
  /\ (forall data i,
        first_occurrence SendVideo.mvhd data i ->
        (List.length data < i + 24)%nat ->
        SendVideo._get_mp4_duration data = Ok (0 # 1))
  /\ (forall pre skip post t0 t1 t2 t3 d0 d1 d2 d3,
        first_occurrence SendVideo.mvhd
          (pre ++ SendVideo.mvhd ++ skip ++ [t0; t1; t2; t3; d0; d1; d2; d3] ++ post)
          (List.length pre) ->
        List.length skip = 12%nat ->
        SendVideo._get_mp4_duration
          (pre ++ SendVideo.mvhd ++ skip ++ [t0; t1; t2; t3; d0; d1; d2; d3] ++ post)
        = Ok (if be32 t0 t1 t2 t3 =? 0 then 0 # 1
              else Qred (be32 d0 d1 d2 d3 # Z.to_pos (be32 t0 t1 t2 t3))))
  /\ SendVideo._get_mp4_duration Mock.mp4_2500_1000 = Ok (5 # 2)
  /\ SendVideo._get_mp4_duration [x41; x42; x43] = Ok (0 # 1).
Proof.
  split; [exact get_mp4_duration_total |].
  split; [exact get_mp4_duration_absent |].
  split; [exact get_mp4_duration_truncated |].
  split; [intros; now apply get_mp4_duration_header |].
  split; reflexivity.
Qed.

(** C5 at a header with time scale 1000 and duration 2500 after four leading
    bytes, and at a header cut short after the time scale. *)
Lemma C5_get_mp4_duration_witness :
  SendVideo._get_mp4_duration
    ([x00; x00; x00; x6c] ++ SendVideo.mvhd
     ++ [x00; x00; x00; x00; x00; x00; x00; x00; x00; x00; x00; x00]
     ++ [x00; x00; x03; xe8; x00; x00; x09; xc4] ++ [x00; x01; x00; x00])
  = Ok (if be32 x00 x00 x03 xe8 =? 0 then 0 # 1
        else Qred (be32 x00 x00 x09 xc4 # Z.to_pos (be32 x00 x00 x03 xe8)))
  /\ SendVideo._get_mp4_duration
       ([x00; x00; x00; x6c] ++ SendVideo.mvhd
        ++ [x00; x00; x00; x00; x00; x00; x00; x00; x00; x00; x00; x00]
        ++ [x00; x00; x03; xe8])
     = Ok (0 # 1).
Proof.
  destruct C5_get_mp4_duration as (_ & _ & Htrunc & Hhdr & _).
  split.
  - apply (Hhdr [x00; x00; x00; x6c]
             [x00; x00; x00; x00; x00; x00; x00; x00; x00; x00; x00; x00]
             [x00; x01; x00; x00]).
    + apply bytes_find_sound. vm_compute. reflexivity.
    + reflexivity.
  - apply (Htrunc _ 4%nat).
    + apply bytes_find_sound. vm_compute. reflexivity.
    + cbn. lia.
Defined.

(** C6, as stated, fails in its last part: on a path issuance with code 500,
    [main] returns [None], not the code. *)
Lemma C6_counterexample :
  ~ (forall (w : world) (file : bytes) (st code : Z) (ri : resource_info)
            (t : list request),
        local_file w = Some file ->
        file <> [] ->
        issue_reply w (image_main_issue_request w file) = Response st (Some ri) ->
        ri_code ri = Some (JInt code) ->
        code <> 200 ->
        fst (SendImage.main w t) = Ok (JInt code)).
Proof.
  intros H.
  assert (E : fst (SendImage.main Mock.rejecting []) = Ok (JInt 500)).
  { apply (H Mock.rejecting [x41] 200 500
             {| ri_code := Some (JInt 500); ri_resourcePath := None |});
      try reflexivity; [discriminate | lia]. }
  vm_compute in E. discriminate E.
Qed.

(** C6, amended. Whenever the path-issuance response has a code other than
    200 (or no code), the orchestrator short-circuits: the path-issuance
    request is the only request of the run, so neither the preflight nor the
    upload is called, and [main] returns [None]. Both media kinds. *)
Theorem C6_path_failure_short_circuits (w : world) (file : bytes) (t : list request) :
  local_file w = Some file ->
  file <> [] ->
  (forall st ri,
      issue_reply w (image_main_issue_request w file) = Response st (Some ri) ->
      py_ne_200 (ri_code ri) = true ->
      SendImage.main w t = (Ok JNull, t ++ [image_main_issue_request w file]))
  /\ (forall st ri,
        issue_reply w (video_main_issue_request w file) = Response st (Some ri) ->
        py_ne_200 (ri_code ri) = true ->
        SendVideo.main w t = (Ok JNull, t ++ [video_main_issue_request w file]))
  /\ is_preflight (image_main_issue_request w file) = false
  /\ is_upload (image_main_issue_request w file) = false
  /\ is_preflight (video_main_issue_request w file) = false
  /\ is_upload (video_main_issue_request w file) = false.
Proof.
  intros Hf Hne. split; [| split; [| repeat split]]; intros st ri Hissue Hcode.
  - rewrite (image_main_unfold w file t Hf Hne), Hissue. cbn [issue_result].
    now rewrite Hcode.
  - rewrite (video_main_unfold w file t Hf Hne), Hissue. cbn [issue_result].
    now rewrite Hcode.
Qed.

(** C6 (amended) on a path issuance that answers code 500. *)
Lemma C6_path_failure_short_circuits_witness :
  SendVideo.main Mock.rejecting []
  = (Ok JNull, [] ++ [video_main_issue_request Mock.rejecting [x41]]).
Proof.
  destruct (C6_path_failure_short_circuits Mock.rejecting [x41] [] eq_refl)
    as (_ & H & _); [discriminate |].
  apply (H 200 {| ri_code := Some (JInt 500); ri_resourcePath := None |});
    reflexivity.
Defined.

(** C7. The [filesize] field of the path-issuance request is the byte length
    of the original payload, for both media kinds and whether the payload is
    passed as bytes or as its base64 text: decoding the base64 encoding of a
    payload gives the payload back. *)
Theorem C7_filesize_is_payload_length (w : world) (filename : string) (p : bytes)
    (ch : Z) (t : list request) :
  Base64.b64decode (FStr (Base64.decode_utf8 (Base64.b64encode p))) = Ok p
  /\ (forall self fd,
        In fd [FBytes p; FStr (Base64.decode_utf8 (Base64.b64encode p))] ->
        exists req,
          snd (SendImage.issue_resource_path w self filename fd ch t) = t ++ [req]
          /\ request_field "filesize" req = Some (JInt (py_len p)))
  /\ (forall self fd,
        In fd [FBytes p; FStr (Base64.decode_utf8 (Base64.b64encode p))] ->
        exists req,
          snd (SendVideo.issue_resource_path w self filename fd ch t) = t ++ [req]
          /\ request_field "filesize" req = Some (JInt (py_len p))).
Proof.
  split; [apply b64decode_b64encode_str |].
  assert (Hd : forall fd,
             In fd [FBytes p; FStr (Base64.decode_utf8 (Base64.b64encode p))] ->
             Base64.b64decode (FStr (base64_text fd)) = Ok p).
  { intros fd [<- | [<- | []]]; apply b64decode_b64encode_str. }
  split; intros self fd Hfd.
  - eexists. rewrite (image_issue_run _ _ _ _ _ _ _ (Hd fd Hfd)). split; reflexivity.
  - eexists. rewrite (video_issue_run _ _ _ _ _ _ _ (Hd fd Hfd)). split; reflexivity.
Qed.

(** C7 on a two-byte video payload passed as bytes. *)
Lemma C7_filesize_is_payload_length_witness :
  exists req,
    snd (SendVideo.issue_resource_path Mock.accepting Mock.video_api "video.mp4"
           (FBytes [x41; x42]) 307464837 [])
    = [] ++ [req]
    /\ request_field "filesize" req = Some (JInt (py_len [x41; x42])).
Proof.
  destruct (C7_filesize_is_payload_length Mock.accepting "video.mp4" [x41; x42]
              307464837 []) as (_ & _ & H).
  apply (H Mock.video_api (FBytes [x41; x42])). cbn. tauto.
Defined.

(** C8. Whenever [issue_resource_path] sends its request, the image request
    body is exactly serviceId, channelNo, filename, filesize, msgType 11,
    channelType 10 and fileData, the base64 text of the payload; the video
    request body is the same fields with msgType 14 and no fileData. (A
    [str] argument that is not decodable base64 raises before any request.) *)
Theorem C8_issue_request_body (w : world) (filename : string) (fd : file_input)
    (ch : Z) (t : list request) :
  match Base64.b64decode (FStr (base64_text fd)) with
  | Ok decoded =>
      (forall self, exists url h c,
          snd (SendImage.issue_resource_path w self filename fd ch t)
          = t ++ [POST_json url h c
                    (JObj [ ("serviceId", JStr "works");
                            ("channelNo", JInt ch);
                            ("filename", JStr filename);
                            ("filesize", JInt (py_len decoded));
                            ("msgType", JInt 11);
                            ("channelType", JInt 10);
                            ("fileData", JStr (base64_text fd)) ]%string)])
      /\ (forall self, exists url h c,
          snd (SendVideo.issue_resource_path w self filename fd ch t)
          = t ++ [POST_json url h c
                    (JObj [ ("serviceId", JStr "works");
                            ("channelNo", JInt ch);
                            ("filename", JStr filename);
                            ("filesize", JInt (py_len decoded));
                            ("msgType", JInt 14);
                            ("channelType", JInt 10) ]%string)])
  | Raise e =>
      (forall self, SendImage.issue_resource_path w self filename fd ch t = (Raise e, t))
      /\ (forall self, SendVideo.issue_resource_path w self filename fd ch t = (Raise e, t))
  end.
Proof.
  destruct (Base64.b64decode (FStr (base64_text fd))) as [decoded | e] eqn:Hd.
  - split; intros self.
    + rewrite (image_issue_run _ _ _ _ _ _ _ Hd). do 3 eexists. reflexivity.
    + rewrite (video_issue_run _ _ _ _ _ _ _ Hd). do 3 eexists. reflexivity.
  - split; intros self.
    + apply (image_issue_raise _ _ _ _ _ _ _ Hd).
    + apply (video_issue_raise _ _ _ _ _ _ _ Hd).
Qed.

(** C9. When the storage POST comes back with a body that is not valid JSON,
    [upload_file] returns the HTTP status code as the result code; when the
    POST fails at transport level, [upload_file] returns code -1 and does not
    raise. Both media kinds. *)
Theorem C9_upload_response_handling (w : world) (fd : file_input) (p : bytes)
    (rp : string) (t : list request) :
  uploader_file_data fd = Ok p ->
  p <> [] ->
  (forall self, exists req,
      is_upload req = true
      /\ snd (SendVideo.upload_file w self rp fd t) = t ++ [req]
      /\ (forall status, upload_reply w req = Response status None ->
            fst (SendVideo.upload_file w self rp fd t) = Ok (code_dict status))
      /\ (upload_reply w req = TransportFailure ->
            fst (SendVideo.upload_file w self rp fd t) = Ok (code_dict (-1))))
  /\ (forall self width height,
        pil_open w p = Some (width, height) -> width <> 0 -> height <> 0 ->
        exists req,
          is_upload req = true
          /\ snd (SendImage.upload_file w self rp fd t) = t ++ [req]
          /\ (forall status, upload_reply w req = Response status None ->
                fst (SendImage.upload_file w self rp fd t) = Ok (code_dict status))
          /\ (upload_reply w req = TransportFailure ->
                fst (SendImage.upload_file w self rp fd t) = Ok (code_dict (-1)))).
Proof.
  intros Hp Hne. split.
  - intros self. destruct (get_mp4_duration_total p) as (q & Hq).
    exists (video_upload_request w self rp p q).
    rewrite (video_upload_run w self rp fd p q t Hp Hq Hne). cbn [fst snd].
    repeat split; intros; rewrite H; reflexivity.
  - intros self width height Hpil Hw Hh.
    exists (image_upload_request w self rp p width height).
    rewrite (image_upload_run w self rp fd p width height t Hp Hne Hpil Hw Hh).
    cbn [fst snd]. repeat split; intros; rewrite H; reflexivity.
Qed.

(** C9 on an upload answered 502 with a body that is not JSON, and on an
    upload that fails at transport level. *)
Lemma C9_upload_response_handling_witness :
  fst (SendImage.upload_file (Mock.with_upload (Response 502 None) Mock.accepting)
         Mock.image_api "/abc" (FBytes [x41]) [])
  = Ok (code_dict 502)
  /\ fst (SendVideo.upload_file (Mock.with_upload TransportFailure Mock.accepting)
            Mock.video_api "/abc" (FBytes [x41]) [])
     = Ok (code_dict (-1)).
Proof.
  split.
  - destruct (C9_upload_response_handling
                (Mock.with_upload (Response 502 None) Mock.accepting)
                (FBytes [x41]) [x41] "/abc" [] eq_refl) as (_ & H); [discriminate |].
    destruct (H Mock.image_api 10 10 eq_refl) as (req & _ & _ & Hst & _); [lia | lia |].
    apply Hst. reflexivity.
  - destruct (C9_upload_response_handling
                (Mock.with_upload TransportFailure Mock.accepting)
                (FBytes [x41]) [x41] "/abc" [] eq_refl) as (H & _); [discriminate |].
    destruct (H Mock.video_api) as (req & _ & _ & _ & Hfail).
    apply Hfail. reflexivity.
Defined.

(** C10. Passing the base64 text of a payload gives the same run as passing
    the payload: the uploader constructors decode the text back to the same
    bytes, so [upload_file] and [issue_resource_path] of either media kind
    issue the same requests and return the same result. *)
Theorem C10_base64_text_or_bytes (w : world) (p : bytes) (rp filename : string)
    (ch : Z) (t : list request) :
  let s := Base64.decode_utf8 (Base64.b64encode p) in
  SendVideo.VideoUploader_init (FStr s) = SendVideo.VideoUploader_init (FBytes p)
  /\ SendImage.ImageUploader_init (FStr s) = SendImage.ImageUploader_init (FBytes p)
  /\ (forall self,
        SendVideo.upload_file w self rp (FStr s) t
        = SendVideo.upload_file w self rp (FBytes p) t)
  /\ (forall self,
        SendImage.upload_file w self rp (FStr s) t
        = SendImage.upload_file w self rp (FBytes p) t)
  /\ (forall self,
        SendVideo.issue_resource_path w self filename (FStr s) ch t
        = SendVideo.issue_resource_path w self filename (FBytes p) ch t)
  /\ (forall self,
        SendImage.issue_resource_path w self filename (FStr s) ch t
        = SendImage.issue_resource_path w self filename (FBytes p) ch t).
Proof.
  intros s.
  assert (Hv : SendVideo.VideoUploader_init (FStr s)
               = SendVideo.VideoUploader_init (FBytes p)).
  { unfold SendVideo.VideoUploader_init. subst s.
    rewrite uploader_file_data_b64. reflexivity. }
  assert (Hi : SendImage.ImageUploader_init (FStr s)
               = SendImage.ImageUploader_init (FBytes p)).
  { unfold SendImage.ImageUploader_init. subst s.
    rewrite uploader_file_data_b64. reflexivity. }
  repeat split; try assumption; intros self.
  - unfold SendVideo.upload_file. now rewrite Hv.
  - unfold SendImage.upload_file. now rewrite Hi.
Qed.

(** * Further properties of the code *)

(** ** [upload_file]: every way it can end *)

Lemma video_upload_cases w self rp fd t :
  (exists e, uploader_file_data fd = Raise e
             /\ SendVideo.upload_file w self rp fd t = (Raise e, t))
  \/ (exists p, uploader_file_data fd = Ok p
                /\ SendVideo.upload_file w self rp fd t = (Ok (code_dict (-1)), t))
  \/ (exists p req,
        uploader_file_data fd = Ok p /\ p <> [] /\ is_upload req = true
        /\ SendVideo.upload_file w self rp fd t
           = (Ok (upload_result (upload_reply w req)), t ++ [req])).
Proof.
  destruct (uploader_file_data fd) as [p | e] eqn:Hp.
  - destruct p as [| b p].
    + right. left. exists []. split; [reflexivity | now apply video_upload_empty].
    + right. right. destruct (get_mp4_duration_total (b :: p)) as (q & Hq).
      exists (b :: p), (video_upload_request w self rp (b :: p) q).
      repeat split; [discriminate |].
      apply (video_upload_run w self rp fd _ q t Hp Hq). discriminate.
  - left. exists e. split; [reflexivity |].
    unfold SendVideo.upload_file, SendVideo.VideoUploader_init, bind, lift.
    rewrite Hp. reflexivity.
Qed.

Lemma image_upload_cases w self rp fd t :
  (exists e, uploader_file_data fd = Raise e
             /\ SendImage.upload_file w self rp fd t = (Raise e, t))
  \/ (exists p, uploader_file_data fd = Ok p
                /\ SendImage.upload_file w self rp fd t = (Ok (code_dict (-1)), t))
  \/ (exists p req,
        uploader_file_data fd = Ok p /\ p <> [] /\ is_upload req = true
        /\ SendImage.upload_file w self rp fd t
           = (Ok (upload_result (upload_reply w req)), t ++ [req])).
Proof.
  destruct (uploader_file_data fd) as [p | e] eqn:Hp.
  - destruct p as [| b p].
    + right. left. exists []. split; [reflexivity | now apply image_upload_empty].
    + destruct (pil_open w (b :: p)) as [[width height] |] eqn:Hpil.
      * destruct (Z.eq_dec width 0) as [Hw | Hw].
        { right. left. exists (b :: p). split; [reflexivity |].
          apply (image_upload_zero_dimension w self rp fd _ width height t Hp Hpil).
          now left. }
        destruct (Z.eq_dec height 0) as [Hh | Hh].
        { right. left. exists (b :: p). split; [reflexivity |].
          apply (image_upload_zero_dimension w self rp fd _ width height t Hp Hpil).
          now right. }
        right. right.
        exists (b :: p), (image_upload_request w self rp (b :: p) width height).
        repeat split; [discriminate |].
        apply (image_upload_run w self rp fd _ width height t Hp); auto. discriminate.
      * right. left. exists (b :: p). split; [reflexivity |].
        now apply (image_upload_unreadable w self rp fd (b :: p) t).
  - left. exists e. split; [reflexivity |].
    unfold SendImage.upload_file, SendImage.ImageUploader_init, bind, lift.
    rewrite Hp. reflexivity.
Qed.

(** [upload_file] on bytes ends without an exception, with the trace
    unchanged or longer by the one storage POST. *)
Lemma video_upload_bytes w self rp p t :
  exists j, fst (SendVideo.upload_file w self rp (FBytes p) t) = Ok j
            /\ (snd (SendVideo.upload_file w self rp (FBytes p) t) = t
                \/ exists req, is_upload req = true
                     /\ snd (SendVideo.upload_file w self rp (FBytes p) t) = t ++ [req]).
Proof.
  destruct (video_upload_cases w self rp (FBytes p) t)
    as [(e & He & _) | [(p' & _ & H) | (p' & req & _ & _ & Hreq & H)]].
  - discriminate He.
  - rewrite H. eexists. split; [reflexivity | now left].
  - rewrite H. eexists. split; [reflexivity | right; now exists req].
Qed.

Lemma image_upload_bytes w self rp p t :
  exists j, fst (SendImage.upload_file w self rp (FBytes p) t) = Ok j
            /\ (snd (SendImage.upload_file w self rp (FBytes p) t) = t
                \/ exists req, is_upload req = true
                     /\ snd (SendImage.upload_file w self rp (FBytes p) t) = t ++ [req]).
Proof.
  destruct (image_upload_cases w self rp (FBytes p) t)
    as [(e & He & _) | [(p' & _ & H) | (p' & req & _ & _ & Hreq & H)]].
  - discriminate He.
  - rewrite H. eexists. split; [reflexivity | now left].
  - rewrite H. eexists. split; [reflexivity | right; now exists req].
Qed.



(** X2. A failed path issuance is not caught: when the path-issuance POST
    fails at transport level, [main] ends with [RequestException]; when its
    answer is not valid JSON, [main] ends with the JSON decode error. In both
    cases the path-issuance POST is the only request of the run. Both media
    kinds. *)
Theorem X2_main_issue_failure (w : world) (file : bytes) (t : list request) :
  local_file w = Some file ->
  file <> [] ->
  (issue_reply w (image_main_issue_request w file) = TransportFailure ->
   SendImage.main w t = (Raise RequestException, t ++ [image_main_issue_request w file]))
  /\ (forall status,
        issue_reply w (image_main_issue_request w file) = Response status None ->
        SendImage.main w t = (Raise JSONDecodeError, t ++ [image_main_issue_request w file]))
  /\ (issue_reply w (video_main_issue_request w file) = TransportFailure ->
      SendVideo.main w t = (Raise RequestException, t ++ [video_main_issue_request w file]))
  /\ (forall status,
        issue_reply w (video_main_issue_request w file) = Response status None ->
        SendVideo.main w t = (Raise JSONDecodeError, t ++ [video_main_issue_request w file])).
Proof.
  intros Hf Hne.
  rewrite (image_main_unfold w file t Hf Hne), (video_main_unfold w file t Hf Hne).
  repeat split; intros; rewrite H; reflexivity.
Qed.

(** X2 on a path issuance that times out, and on one answered with HTML. *)
Lemma X2_main_issue_failure_witness :
  SendImage.main (Mock.with_issue TransportFailure Mock.accepting) []
  = (Raise RequestException,
     [] ++ [image_main_issue_request (Mock.with_issue TransportFailure Mock.accepting) [x41]])
  /\ SendVideo.main (Mock.with_issue (Response 502 None) Mock.accepting) []
     = (Raise JSONDecodeError,
        [] ++ [video_main_issue_request
                 (Mock.with_issue (Response 502 None) Mock.accepting) [x41]]).
Proof.
  split.
  - destruct (X2_main_issue_failure (Mock.with_issue TransportFailure Mock.accepting)
                [x41] [] eq_refl) as (H & _); [discriminate |].
    apply H. reflexivity.
  - destruct (X2_main_issue_failure (Mock.with_issue (Response 502 None) Mock.accepting)
                [x41] [] eq_refl) as (_ & _ & _ & H); [discriminate |].
    apply (H 502). reflexivity.
Defined.

(** X3. A path-issuance answer with code 200 but no [resourcePath] key makes
    [main] end with [KeyError] after that one request: neither preflight nor
    upload is attempted. Both media kinds. *)
Theorem X3_main_missing_resource_path (w : world) (file : bytes) (t : list request) :
  local_file w = Some file ->
  file <> [] ->
  (forall status ri,
      issue_reply w (image_main_issue_request w file) = Response status (Some ri) ->
      py_ne_200 (ri_code ri) = false ->
      ri_resourcePath ri = None ->
      SendImage.main w t = (Raise KeyError, t ++ [image_main_issue_request w file]))
  /\ (forall status ri,
        issue_reply w (video_main_issue_request w file) = Response status (Some ri) ->
        py_ne_200 (ri_code ri) = false ->
        ri_resourcePath ri = None ->
        SendVideo.main w t = (Raise KeyError, t ++ [video_main_issue_request w file])).
Proof.
  intros Hf Hne.
  rewrite (image_main_unfold w file t Hf Hne), (video_main_unfold w file t Hf Hne).
  split; intros status ri Hi Hc Hr; rewrite Hi; cbn [issue_result]; rewrite Hc, Hr;
    reflexivity.
Qed.

(** X3 on an answer [{code: 200}]. *)
Lemma X3_main_missing_resource_path_witness :
  SendVideo.main
    (Mock.with_issue
       (Response 200 (Some {| ri_code := Some (JInt 200); ri_resourcePath := None |}))
       Mock.accepting) []
  = (Raise KeyError,
     [] ++ [video_main_issue_request
              (Mock.with_issue
                 (Response 200 (Some {| ri_code := Some (JInt 200);
                                        ri_resourcePath := None |}))
                 Mock.accepting) [x41]]).
Proof.
  destruct (X3_main_missing_resource_path
              (Mock.with_issue
                 (Response 200 (Some {| ri_code := Some (JInt 200);
                                        ri_resourcePath := None |}))
                 Mock.accepting) [x41] [] eq_refl) as (_ & H); [discriminate |].
  apply (H 200 {| ri_code := Some (JInt 200); ri_resourcePath := None |}); reflexivity.
Defined.

(** X4. Strict sequencing. Whatever the file, the server and the network do,
    the requests of one run of [main] are in protocol order: at most three,
    first the path issuance, then the preflight, then the upload, none twice
    and none without the one before it. Both media kinds. *)
Theorem X4_main_protocol_order (w : world) :
  in_protocol_order (snd (SendImage.main w [])) = true
  /\ in_protocol_order (snd (SendVideo.main w [])) = true.
Proof.
  split.
  - destruct (local_file w) as [[| b file] |] eqn:Hf;
      try (unfold SendImage.main; rewrite Hf; reflexivity).
    rewrite (image_main_unfold w (b :: file) [] Hf) by discriminate.
    destruct (issue_result _) as [ri | e]; [| reflexivity].
    destruct (py_ne_200 (ri_code ri)); [reflexivity |].
    destruct (ri_resourcePath ri) as [rp |]; [| reflexivity].
    rewrite image_after_preflight. destruct (options_reply w _); [reflexivity |].
    destruct (image_upload_bytes w (image_main_api w) rp (b :: file)
                ([] ++ [image_main_issue_request w (b :: file)]
                 ++ [preflight_request (SendImage.storage_url (image_main_api w)) rp]))
      as (j & Hj & [Ht | (req & Hreq & Ht)]).
    + rewrite app_assoc in Hj, Ht.
      destruct (SendImage.upload_file _ _ _ _ _) as [r tr]. cbn [fst snd] in *. subst.
      reflexivity.
    + rewrite app_assoc in Hj, Ht.
      destruct (SendImage.upload_file _ _ _ _ _) as [r tr]. cbn [fst snd] in *. subst.
      cbn. now rewrite Hreq.
  - destruct (local_file w) as [[| b file] |] eqn:Hf;
      try (unfold SendVideo.main; rewrite Hf; reflexivity).
    rewrite (video_main_unfold w (b :: file) [] Hf) by discriminate.
    destruct (issue_result _) as [ri | e]; [| reflexivity].
    destruct (py_ne_200 (ri_code ri)); [reflexivity |].
    destruct (ri_resourcePath ri) as [rp |]; [| reflexivity].
    rewrite video_after_preflight. destruct (options_reply w _); [reflexivity |].
    destruct (video_upload_bytes w (video_main_api w) rp (b :: file)
                ([] ++ [video_main_issue_request w (b :: file)]
                 ++ [preflight_request (SendVideo.storage_url (video_main_api w)) rp]))
      as (j & Hj & [Ht | (req & Hreq & Ht)]).
    + rewrite app_assoc in Hj, Ht.
      destruct (SendVideo.upload_file _ _ _ _ _) as [r tr]. cbn [fst snd] in *. subst.
      reflexivity.
    + rewrite app_assoc in Hj, Ht.
      destruct (SendVideo.upload_file _ _ _ _ _) as [r tr]. cbn [fst snd] in *. subst.
      cbn. now rewrite Hreq.
Qed.

(** X5. An image PIL cannot open, or one with a zero dimension, is found out
    only inside [upload_file]: by then [main] has issued the path and the
    preflight. The run ends there without an upload and without an error:
    [main] returns [None]. *)
Theorem X5_main_unreadable_image (w : world) (file : bytes) (rp : string)
    (t : list request) :
  local_file w = Some file ->
  file <> [] ->
  forall st ri status body,
    issue_reply w (image_main_issue_request w file) = Response st (Some ri) ->
    py_ne_200 (ri_code ri) = false ->
    ri_resourcePath ri = Some rp ->
    options_reply w (preflight_request (SendImage.storage_url (image_main_api w)) rp)
    = Response status body ->
    (pil_open w file = None
     \/ exists width height,
          pil_open w file = Some (width, height) /\ (width = 0 \/ height = 0)) ->
    SendImage.main w t
    = (Ok JNull,
       (t ++ [image_main_issue_request w file])
       ++ [preflight_request (SendImage.storage_url (image_main_api w)) rp]).
Proof.
  intros Hf Hne st ri status body Hissue Hcode Hrp Hopt Hpil.
  rewrite (image_main_unfold w file t Hf Hne), Hissue. cbn [issue_result].
  rewrite Hcode, Hrp, image_after_preflight, Hopt.
  destruct Hpil as [Hpil | (width & height & Hpil & Hz)].
  - now rewrite (image_upload_unreadable w _ rp (FBytes file) file _ eq_refl Hpil).
  - now rewrite (image_upload_zero_dimension w _ rp (FBytes file) file width height _
                   eq_refl Hpil Hz).
Qed.

(** X5 on a file PIL rejects. *)
Lemma X5_main_unreadable_image_witness :
  SendImage.main (with_pil (fun _ => None) Mock.accepting) []
  = (Ok JNull,
     ([] ++ [image_main_issue_request (with_pil (fun _ => None) Mock.accepting) [x41]])
     ++ [preflight_request "https://storage.worksmobile.com" "/abc"]).
Proof.
  apply (X5_main_unreadable_image (with_pil (fun _ => None) Mock.accepting) [x41] "/abc" []
           eq_refl ltac:(discriminate)
           200 {| ri_code := Some (JInt 200); ri_resourcePath := Some "/abc"%string |}
           200 None eq_refl eq_refl eq_refl eq_refl).
  left. reflexivity.
Defined.




(** X8. When the storage answers the upload with valid JSON, [upload_file]
    returns that JSON as it is, whatever the HTTP status code: the status is
    looked at only when the body cannot be decoded. Both media kinds. *)
Theorem X8_upload_json_passthrough (w : world) (fd : file_input) (p : bytes)
    (rp : string) (t : list request) :
  uploader_file_data fd = Ok p ->
  p <> [] ->
  (forall self, exists req,
      snd (SendVideo.upload_file w self rp fd t) = t ++ [req]
      /\ forall status j,
           upload_reply w req = Response status (Some j) ->
           fst (SendVideo.upload_file w self rp fd t) = Ok j)
  /\ (forall self width height,
        pil_open w p = Some (width, height) -> width <> 0 -> height <> 0 ->
        exists req,
          snd (SendImage.upload_file w self rp fd t) = t ++ [req]
          /\ forall status j,
               upload_reply w req = Response status (Some j) ->
               fst (SendImage.upload_file w self rp fd t) = Ok j).
Proof.
  intros Hp Hne. split.
  - intros self. destruct (get_mp4_duration_total p) as (q & Hq).
    exists (video_upload_request w self rp p q).
    rewrite (video_upload_run w self rp fd p q t Hp Hq Hne). cbn [fst snd].
    split; [reflexivity |]. intros status j H. now rewrite H.
  - intros self width height Hpil Hw Hh.
    exists (image_upload_request w self rp p width height).
    rewrite (image_upload_run w self rp fd p width height t Hp Hne Hpil Hw Hh).
    cbn [fst snd]. split; [reflexivity |]. intros status j H. now rewrite H.
Qed.

(** X8 on a storage that answers 500 with the JSON body [{code: 416}]. *)
Lemma X8_upload_json_passthrough_witness :
  fst (SendVideo.upload_file
         (Mock.with_upload (Response 500 (Some (code_dict 416))) Mock.accepting)
         Mock.video_api "/abc" (FBytes [x41]) [])
  = Ok (code_dict 416).
Proof.
  destruct (X8_upload_json_passthrough
              (Mock.with_upload (Response 500 (Some (code_dict 416))) Mock.accepting)
              (FBytes [x41]) [x41] "/abc" [] eq_refl) as (H & _); [discriminate |].
  destruct (H Mock.video_api) as (req & _ & Hj).
  apply (Hj 500). reflexivity.
Defined.

(** ** The upload request *)

Lemma encode_utf8_app (a b : string) :
  encode_utf8 (a ++ b) = encode_utf8 a ++ encode_utf8 b.
Proof.
  unfold encode_utf8, list_byte_of_string.
  induction a as [| c a IH]; cbn; [reflexivity | now rewrite IH].
Qed.

Lemma multipart_body_length (boundary filename content_type : string) (p : bytes) :
  py_len (multipart_body boundary filename content_type p)
  = 2 * py_len (encode_utf8 boundary) + py_len (encode_utf8 filename)
    + py_len (encode_utf8 content_type) + py_len p + 86.
Proof.
  unfold multipart_body, py_len, CRLF, dquote.
  repeat (rewrite ?length_app, ?encode_utf8_app; cbn [List.length]).
  set (B := List.length (encode_utf8 boundary)).
  set (F := List.length (encode_utf8 filename)).
  set (C := List.length (encode_utf8 content_type)).
  set (P := List.length p).
  clearbody B F C P. cbn -[Nat.add Z.of_nat Z.add Z.mul]. lia.
Qed.

(** X9. Every upload carries the protocol's identification: the request goes
    to the storage URL followed by the resource path, with the three fixed
    query parameters, and its headers name the resource path, the service,
    the caller and the channel of the client object, the message type of the
    media kind (14 for video, 11 for image, as in the path-issuance body),
    [x-ocn] 1 and the clock's milliseconds as [x-tid]. *)
Theorem X9_upload_identification (w : world) (fd : file_input) (p : bytes) (rp : string)
    (t : list request) :
  uploader_file_data fd = Ok p ->
  p <> [] ->
  (forall self, exists req,
      snd (SendVideo.upload_file w self rp fd t) = t ++ [req]
      /\ request_url req = (SendVideo.storage_url self ++ rp)%string
      /\ request_params req
         = [ ("Servicekey", "oneapp"); ("writeMode", "overwrite");
             ("isMakethumbnail", "true") ]%string
      /\ header_text "x-resourcepath" req = Some rp
      /\ header_text "x-serviceid" req = Some "works"%string
      /\ header_text "x-type" req = Some (py_str_int 14)
      /\ header_text "x-callerno" req = Some (SendVideo.caller_no self)
      /\ header_text "x-channelno" req = Some (SendVideo.channel_no self)
      /\ header_text "x-ocn" req = Some "1"%string
      /\ header_text "x-tid" req = Some (py_str_int (now_ms w))
      /\ extras_field "resourcepath" req = Some (JStr rp))
  /\ (forall self width height,
        pil_open w p = Some (width, height) -> width <> 0 -> height <> 0 ->
        exists req,
          snd (SendImage.upload_file w self rp fd t) = t ++ [req]
          /\ request_url req = (SendImage.storage_url self ++ rp)%string
          /\ request_params req
             = [ ("Servicekey", "oneapp"); ("writeMode", "overwrite");
                 ("isMakethumbnail", "true") ]%string
          /\ header_text "x-resourcepath" req = Some rp
          /\ header_text "x-serviceid" req = Some "works"%string
          /\ header_text "x-type" req = Some (py_str_int 11)
          /\ header_text "x-callerno" req = Some (SendImage.caller_no self)
          /\ header_text "x-channelno" req = Some (SendImage.channel_no self)
          /\ header_text "x-ocn" req = Some "1"%string
          /\ header_text "x-tid" req = Some (py_str_int (now_ms w))
          /\ extras_field "resourcepath" req = Some (JStr rp)
          /\ extras_field "width" req = Some (JInt width)
          /\ extras_field "height" req = Some (JInt height)).
Proof.
  intros Hp Hne. split.
  - intros self. destruct (get_mp4_duration_total p) as (q & Hq).
    exists (video_upload_request w self rp p q).
    rewrite (video_upload_run w self rp fd p q t Hp Hq Hne).
    repeat split.
  - intros self width height Hpil Hw Hh.
    exists (image_upload_request w self rp p width height).
    rewrite (image_upload_run w self rp fd p width height t Hp Hne Hpil Hw Hh).
    repeat split.
Qed.

(** X9 on a one-byte video. *)
Lemma X9_upload_identification_witness :
  exists req,
    snd (SendVideo.upload_file Mock.accepting Mock.video_api "/abc" (FBytes [x41]) [])
    = [] ++ [req]
    /\ request_url req = "https://storage.worksmobile.com/abc"%string
    /\ header_text "x-type" req = Some "14"%string
    /\ header_text "x-callerno" req = Some "110002509764123"%string
    /\ header_text "x-channelno" req = Some "307464837"%string.
Proof.
  destruct (X9_upload_identification Mock.accepting (FBytes [x41]) [x41] "/abc" []
              eq_refl) as (H & _); [discriminate |].
  destruct (H Mock.video_api)
    as (req & Ht & Hu & _ & _ & _ & Hty & Hca & Hch & _).
  exists req. repeat split; assumption.
Defined.

(** X10. The preflight keeps its promise: every header name the OPTIONS
    request announces in [Access-Control-Request-Headers] is a header of the
    upload POST that follows, and both requests go to the same URL with the
    same query parameters. Both media kinds. *)
Theorem X10_preflight_announces_upload_headers (w : world) (fd : file_input) (p : bytes)
    (rp : string) (t : list request) :
  uploader_file_data fd = Ok p ->
  p <> [] ->
  (forall self, exists req announced,
      snd (SendVideo.upload_file w self rp fd t) = t ++ [req]
      /\ header_text "Access-Control-Request-Headers"
           (preflight_request (SendVideo.storage_url self) rp) = Some announced
      /\ forallb (fun k => match dict_get k (request_headers req) with
                           | Some _ => true
                           | None => false
                           end) (split_on "," announced) = true
      /\ List.length (split_on "," announced) = 9%nat
      /\ request_url req = request_url (preflight_request (SendVideo.storage_url self) rp)
      /\ request_params req
         = request_params (preflight_request (SendVideo.storage_url self) rp))
  /\ (forall self width height,
        pil_open w p = Some (width, height) -> width <> 0 -> height <> 0 ->
        exists req announced,
          snd (SendImage.upload_file w self rp fd t) = t ++ [req]
          /\ header_text "Access-Control-Request-Headers"
               (preflight_request (SendImage.storage_url self) rp) = Some announced
          /\ forallb (fun k => match dict_get k (request_headers req) with
                               | Some _ => true
                               | None => false
                               end) (split_on "," announced) = true
          /\ List.length (split_on "," announced) = 9%nat
          /\ request_url req
             = request_url (preflight_request (SendImage.storage_url self) rp)
          /\ request_params req
             = request_params (preflight_request (SendImage.storage_url self) rp)).
Proof.
  intros Hp Hne. split.
  - intros self. destruct (get_mp4_duration_total p) as (q & Hq).
    exists (video_upload_request w self rp p q). eexists.
    rewrite (video_upload_run w self rp fd p q t Hp Hq Hne).
    repeat split.
  - intros self width height Hpil Hw Hh.
    exists (image_upload_request w self rp p width height). eexists.
    rewrite (image_upload_run w self rp fd p width height t Hp Hne Hpil Hw Hh).
    repeat split.
Qed.

(** X10 on a one-byte image. *)
Lemma X10_preflight_announces_upload_headers_witness :
  exists req announced,
    snd (SendImage.upload_file Mock.accepting Mock.image_api "/abc" (FBytes [x41]) [])
    = [] ++ [req]
    /\ header_text "Access-Control-Request-Headers"
         (preflight_request (SendImage.storage_url Mock.image_api) "/abc") = Some announced
    /\ forallb (fun k => match dict_get k (request_headers req) with
                         | Some _ => true
                         | None => false
                         end) (split_on "," announced) = true
    /\ List.length (split_on "," announced) = 9%nat
    /\ request_url req
       = request_url (preflight_request (SendImage.storage_url Mock.image_api) "/abc")
    /\ request_params req
       = request_params (preflight_request (SendImage.storage_url Mock.image_api) "/abc").
Proof.
  destruct (X10_preflight_announces_upload_headers Mock.accepting (FBytes [x41]) [x41]
              "/abc" [] eq_refl) as (_ & H); [discriminate |].
  apply (H Mock.image_api 10 10 eq_refl); lia.
Defined.

(** X11. The size of the upload body: the payload, the UTF-8 bytes of the
    file name (the base name of the resource path) and 171 bytes of multipart
    framing, for both media kinds; [Content-Length] is the decimal text of
    that sum. *)
Theorem X11_upload_content_length (w : world) (fd : file_input) (p : bytes) (rp : string)
    (t : list request) :
  uploader_file_data fd = Ok p ->
  p <> [] ->
  (forall self, exists url h pa c data,
      snd (SendVideo.upload_file w self rp fd t) = t ++ [POST_data url h pa c data]
      /\ py_len data = py_len p + py_len (encode_utf8 (basename rp)) + 171
      /\ dict_get "Content-Length" h
         = Some (HStr (py_str_int (py_len p + py_len (encode_utf8 (basename rp)) + 171))))
  /\ (forall self width height,
        pil_open w p = Some (width, height) -> width <> 0 -> height <> 0 ->
        exists url h pa c data,
          snd (SendImage.upload_file w self rp fd t) = t ++ [POST_data url h pa c data]
          /\ py_len data = py_len p + py_len (encode_utf8 (basename rp)) + 171
          /\ dict_get "Content-Length" h
             = Some (HStr (py_str_int
                             (py_len p + py_len (encode_utf8 (basename rp)) + 171)))).
Proof.
  intros Hp Hne.
  assert (Lv : py_len (bytes_join CRLF (map encode_part (SendVideo.upload_form rp p)))
               = py_len p + py_len (encode_utf8 (basename rp)) + 171).
  { change (bytes_join CRLF (map encode_part (SendVideo.upload_form rp p)))
      with (multipart_body SendVideo.boundary (basename rp) "video/mp4" p).
    rewrite multipart_body_length.
    change (py_len (encode_utf8 SendVideo.boundary)) with 38.
    change (py_len (encode_utf8 "video/mp4")) with 9. lia. }
  assert (Li : py_len (bytes_join CRLF (map encode_part (SendImage.upload_form rp p)))
               = py_len p + py_len (encode_utf8 (basename rp)) + 171).
  { change (bytes_join CRLF (map encode_part (SendImage.upload_form rp p)))
      with (multipart_body SendImage.boundary (basename rp) "image/png" p).
    rewrite multipart_body_length.
    change (py_len (encode_utf8 SendImage.boundary)) with 38.
    change (py_len (encode_utf8 "image/png")) with 9. lia. }
  split.
  - intros self. destruct (get_mp4_duration_total p) as (q & Hq).
    rewrite (video_upload_run w self rp fd p q t Hp Hq Hne).
    unfold video_upload_request. do 5 eexists.
    split; [reflexivity |]. split; [exact Lv |].
    rewrite <- Lv. apply dict_get_set_same.
  - intros self width height Hpil Hw Hh.
    rewrite (image_upload_run w self rp fd p width height t Hp Hne Hpil Hw Hh).
    unfold image_upload_request. do 5 eexists.
    split; [reflexivity |]. split; [exact Li |].
    rewrite <- Li. apply dict_get_set_same.
Qed.

(** X11 on a two-byte video and the resource path [/store/abc]: 2 + 3 + 171. *)
Lemma X11_upload_content_length_witness :
  exists url h pa c data,
    snd (SendVideo.upload_file Mock.accepting Mock.video_api "/store/abc"
           (FBytes [x41; x42]) [])
    = [] ++ [POST_data url h pa c data]
    /\ py_len data = py_len [x41; x42] + py_len (encode_utf8 (basename "/store/abc")) + 171
    /\ dict_get "Content-Length" h
       = Some (HStr (py_str_int
                       (py_len [x41; x42] + py_len (encode_utf8 (basename "/store/abc"))
                        + 171))).
Proof.
  destruct (X11_upload_content_length Mock.accepting (FBytes [x41; x42]) [x41; x42]
              "/store/abc" [] eq_refl) as (H & _); [discriminate |].
  apply (H Mock.video_api).
Defined.

(** ** The file name of the upload *)

Lemma has_slash_app (a b : string) :
  has_slash (a ++ b) = has_slash a || has_slash b.
Proof.
  induction a as [| c a IH]; cbn [String.append has_slash]; [reflexivity |].
  rewrite IH. now rewrite orb_assoc.
Qed.

Lemma basename_from_no_slash (p acc : string) :
  has_slash acc = false -> has_slash (basename_from acc p) = false.
Proof.
  revert acc. induction p as [| c p IH]; intros acc Hacc; cbn [basename_from];
    [exact Hacc |].
  destruct (Ascii.eqb c "/") eqn:E.
  - now apply IH.
  - apply IH. rewrite has_slash_app, Hacc. cbn [has_slash]. now rewrite E.
Qed.

Lemma basename_from_leaf (p acc : string) :
  has_slash p = false -> basename_from acc p = (acc ++ p)%string.
Proof.
  revert acc. induction p as [| c p IH]; intros acc Hp; cbn [basename_from].
  - clear. induction acc as [| a acc IH]; cbn; [reflexivity | now rewrite <- IH].
  - cbn [has_slash] in Hp. apply orb_false_iff in Hp. destruct Hp as (Hc & Hp).
    rewrite Hc, (IH _ Hp). clear.
    induction acc as [| a acc IH]; cbn; [reflexivity | now rewrite IH].
Qed.

Lemma basename_from_dir (dir leaf acc : string) :
  basename_from acc (dir ++ String "/" leaf) = basename_from EmptyString leaf.
Proof.
  revert acc. induction dir as [| c dir IH]; intros acc; cbn [String.append basename_from].
  - reflexivity.
  - destruct (Ascii.eqb c "/"); apply IH.
Qed.

(** X12. The file name [upload_file] sends. The multipart body and the
    [filename] field of [x-extras] carry the same name: what follows the last
    ['/'] of the resource path. It never contains a ['/'], it is the leaf of
    [dir/leaf], the whole path when the path has no ['/'], and empty when the
    path ends in ['/']. Both media kinds. *)
Theorem X12_upload_file_name (w : world) (fd : file_input) (p : bytes) (rp : string)
    (t : list request) :
  uploader_file_data fd = Ok p ->
  p <> [] ->
  exists name,
    has_slash name = false
    /\ (forall dir leaf, rp = (dir ++ String "/" leaf)%string -> has_slash leaf = false ->
        name = leaf)
    /\ (has_slash rp = false -> name = rp)
    /\ (forall self, exists url h pa c data,
          snd (SendVideo.upload_file w self rp fd t) = t ++ [POST_data url h pa c data]
          /\ data = multipart_body SendVideo.boundary name "video/mp4" p
          /\ extras_field "filename" (POST_data url h pa c data) = Some (JStr name))
    /\ (forall self width height,
          pil_open w p = Some (width, height) -> width <> 0 -> height <> 0 ->
          exists url h pa c data,
            snd (SendImage.upload_file w self rp fd t) = t ++ [POST_data url h pa c data]
            /\ data = multipart_body SendImage.boundary name "image/png" p
            /\ extras_field "filename" (POST_data url h pa c data) = Some (JStr name)).
Proof.
  intros Hp Hne. exists (basename rp).
  split; [now apply basename_from_no_slash |].
  split.
  { intros dir leaf -> Hleaf. unfold basename.
    rewrite basename_from_dir. now apply basename_from_leaf. }
  split; [intros H; now apply (basename_from_leaf rp EmptyString) |].
  split.
  - intros self. destruct (get_mp4_duration_total p) as (q & Hq).
    rewrite (video_upload_run w self rp fd p q t Hp Hq Hne).
    unfold video_upload_request. do 5 eexists. repeat split.
  - intros self width height Hpil Hw Hh.
    rewrite (image_upload_run w self rp fd p width height t Hp Hne Hpil Hw Hh).
    unfold image_upload_request. do 5 eexists. repeat split.
Qed.

(** X12 on the resource path [/talk/2024/abc.mp4]. *)
Lemma X12_upload_file_name_witness :
  exists url h pa c data,
    snd (SendVideo.upload_file Mock.accepting Mock.video_api "/talk/2024/abc.mp4"
           (FBytes [x41]) [])
    = [] ++ [POST_data url h pa c data]
    /\ data = multipart_body SendVideo.boundary "abc.mp4" "video/mp4" [x41]
    /\ extras_field "filename" (POST_data url h pa c data) = Some (JStr "abc.mp4").
Proof.
  destruct (X12_upload_file_name Mock.accepting (FBytes [x41]) [x41] "/talk/2024/abc.mp4" []
              eq_refl) as (name & _ & Hleaf & _ & H & _); [discriminate |].
  pose proof (Hleaf "/talk/2024"%string "abc.mp4"%string eq_refl eq_refl) as E.
  subst name. apply (H Mock.video_api).
Defined.

(** ** The duration *)

Lemma byteZ_range (b : byte) : 0 <= byteZ b <= 255.
Proof. unfold byteZ. pose proof (to_N_bounded b). lia. Qed.

Lemma be32_range (b0 b1 b2 b3 : byte) : 0 <= be32 b0 b1 b2 b3 <= 4294967295.
Proof.
  unfold be32.
  pose proof (byteZ_range b0). pose proof (byteZ_range b1).
  pose proof (byteZ_range b2). pose proof (byteZ_range b3).
  change (2 ^ 24) with 16777216. change (2 ^ 16) with 65536. change (2 ^ 8) with 256.
  lia.
Qed.

Lemma struct_unpack_range (b : bytes) (n : Z) :
  struct_unpack_BE_I b = Ok n -> 0 <= n <= 4294967295.
Proof.
  destruct b as [| b0 [| b1 [| b2 [| b3 [| b4 b]]]]]; cbn; intros H;
    try discriminate.
  injection H as <-. apply be32_range.
Qed.

Lemma py_truediv_range (a b : Z) (q : Q) :
  0 <= a <= 4294967295 -> 0 <= b ->
  py_truediv a b = Ok q ->
  (0 <= q)%Q /\ (q <= 4294967295 # 1)%Q.
Proof.
  intros Ha Hb. unfold py_truediv. destruct (b =? 0) eqn:E; [discriminate |].
  apply Z.eqb_neq in E. intros H. injection H as <-.
  pose proof (Qred_correct (a # Z.to_pos b)) as H.
  split.
  - apply (Qle_trans _ (a # Z.to_pos b)); [| rewrite H; apply Qle_refl].
    unfold Qle; cbn [Qnum Qden]. lia.
  - apply (Qle_trans _ (a # Z.to_pos b)); [rewrite H; apply Qle_refl |].
    unfold Qle; cbn [Qnum Qden]. rewrite Z2Pos.id by lia. nia.
Qed.

(** X13. The duration [_get_mp4_duration] returns, and with it the
    [recordtime] the upload sends, is never negative and never more than
    2^32 - 1 seconds, whatever the payload. *)
Theorem X13_duration_range (data : bytes) :
  exists q,
    SendVideo._get_mp4_duration data = Ok q
    /\ (0 <= q)%Q /\ (q <= 4294967295 # 1)%Q.
Proof.
  assert (Hzero : (0 <= 0 # 1)%Q /\ (0 # 1 <= 4294967295 # 1)%Q)
    by (split; unfold Qle; cbn; lia).
  unfold SendVideo._get_mp4_duration, SendVideo._get_mp4_duration_try, rtry.
  destruct (bytes_find data SendVideo.mvhd =? -1); [eexists; split; [reflexivity | exact Hzero] |].
  destruct (struct_unpack_BE_I (py_slice data _ _)) as [ts | e] eqn:Ets;
    [| eexists; split; [reflexivity | exact Hzero]].
  cbn [rbind].
  destruct (struct_unpack_BE_I (py_slice data _ _)) as [du | e] eqn:Edu in |- *;
    [| eexists; split; [reflexivity | exact Hzero]].
  cbn [rbind].
  destruct (py_truediv du ts) as [q | e] eqn:Eq;
    [| eexists; split; [reflexivity | exact Hzero]].
  exists q. split; [reflexivity |].
  apply struct_unpack_range in Ets, Edu.
  apply (py_truediv_range du ts q); [exact Edu | lia | exact Eq].
Qed.

(** ** The image's dimensions *)

(** X14. Reading [dimensions] never raises, whatever the state of the cache:
    it leaves the payload and its size untouched, and reading again from the
    uploader it leaves behind gives the same pair. An image PIL cannot open
    reads as (0, 0). *)
Theorem X14_dimensions_stable (w : world) (u : SendImage.ImageUploader) :
  exists d u',
    SendImage.dimensions w u = Ok (d, u')
    /\ SendImage.file_data u' = SendImage.file_data u
    /\ SendImage.file_size u' = SendImage.file_size u
    /\ SendImage.dimensions w u' = Ok (d, u')
    /\ (SendImage._image u = None -> pil_open w (SendImage.file_data u) = None ->
        d = (0, 0)).
Proof.
  destruct u as [fdata fsize [im |]].
  - exists (SendImage.size im), {| SendImage.file_data := fdata;
                                   SendImage.file_size := fsize;
                                   SendImage._image := Some im |}.
    repeat split. discriminate.
  - destruct (pil_open w fdata) as [sz |] eqn:E.
    + exists sz, {| SendImage.file_data := fdata; SendImage.file_size := fsize;
                    SendImage._image := Some {| SendImage.size := sz |} |}.
      unfold SendImage.dimensions, SendImage.image.
      cbn [SendImage._image SendImage.file_data SendImage.file_size SendImage.size].
      rewrite E. repeat split. intros _ H. discriminate H.
    + exists (0, 0), {| SendImage.file_data := fdata; SendImage.file_size := fsize;
                        SendImage._image := None |}.
      unfold SendImage.dimensions, SendImage.image.
      cbn [SendImage._image SendImage.file_data SendImage.file_size].
      rewrite E. repeat split.
Qed.

(** X14 on a fresh uploader whose payload PIL rejects. *)
Lemma X14_dimensions_stable_witness :
  exists d u',
    SendImage.dimensions (with_pil (fun _ => None) Mock.accepting)
      {| SendImage.file_data := [x41]; SendImage.file_size := 1;
         SendImage._image := None |}
    = Ok (d, u')
    /\ d = (0, 0).
Proof.
  destruct (X14_dimensions_stable (with_pil (fun _ => None) Mock.accepting)
              {| SendImage.file_data := [x41]; SendImage.file_size := 1;
                 SendImage._image := None |})
    as (d & u' & Hd & _ & _ & _ & Hzero).
  exists d, u'. split; [exact Hd |]. apply Hzero; reflexivity.
Defined.

(** ** Base64 text as input *)

Lemma a2b_loop_skip (pre post : bytes) (c : byte) (q lc pads : N) :
  skipped_byte c = true ->
  Base64.a2b_loop q lc pads (pre ++ c :: post) = Base64.a2b_loop q lc pads (pre ++ post).
Proof.
  intros Hc. unfold skipped_byte in Hc. apply andb_true_iff in Hc.
  destruct Hc as (Hpad & Hval). apply negb_true_iff in Hpad.
  revert q lc pads. induction pre as [| x pre IH]; intros q lc pads.
  - cbn [app Base64.a2b_loop]. now rewrite Hpad, Hval.
  - cbn [app Base64.a2b_loop].
    repeat match goal with
           | |- context [if ?b then _ else _] => destruct b
           end; rewrite ?IH; reflexivity.
Qed.

Lemma forallb_insert {A} (f : A -> bool) (l1 l2 : list A) (x : A) :
  f x = true -> forallb f (l1 ++ x :: l2) = forallb f (l1 ++ l2).
Proof.
  intros Hx. rewrite !forallb_app. cbn [forallb]. now rewrite Hx.
Qed.

Lemma b64decode_skip (s1 s2 : string) (c : ascii) :
  skipped_byte (byte_of_ascii c) = true ->
  (to_N (byte_of_ascii c) <? 128)%N = true ->
  Base64.b64decode (FStr (s1 ++ String c s2)) = Base64.b64decode (FStr (s1 ++ s2)).
Proof.
  intros Hskip Hascii. unfold Base64.b64decode, Base64.encode_ascii.
  change (list_byte_of_string (s1 ++ String c s2)) with (encode_utf8 (s1 ++ String c s2)).
  change (list_byte_of_string (s1 ++ s2)) with (encode_utf8 (s1 ++ s2)).
  rewrite !encode_utf8_app.
  change (encode_utf8 (String c s2)) with (byte_of_ascii c :: encode_utf8 s2).
  rewrite (forallb_insert (fun b => (to_N b <? 128)%N) _ _ (byte_of_ascii c) Hascii).
  destruct (forallb _ (encode_utf8 s1 ++ encode_utf8 s2)); [| reflexivity].
  cbn [rbind]. unfold Base64.a2b_base64. now apply a2b_loop_skip.
Qed.

(** X15. A character outside the base64 alphabet (a line break, a space) in
    the text passed as [file_data] is ignored by the decoding: inserting one
    anywhere changes neither the payload the uploaders store, nor any run of
    [upload_file], nor the video [issue_resource_path]. The image
    [issue_resource_path] sends the same [filesize], the length of the decoded
    payload, and the text as it was given as [fileData]. *)
Theorem X15_base64_text_layout (w : world) (rp filename : string) (ch : Z)
    (s1 s2 : string) (c : ascii) (t : list request) :
  skipped_byte (byte_of_ascii c) = true ->
  (to_N (byte_of_ascii c) <? 128)%N = true ->
  uploader_file_data (FStr (s1 ++ String c s2)) = uploader_file_data (FStr (s1 ++ s2))
  /\ (forall self,
        SendVideo.upload_file w self rp (FStr (s1 ++ String c s2)) t
        = SendVideo.upload_file w self rp (FStr (s1 ++ s2)) t)
  /\ (forall self,
        SendImage.upload_file w self rp (FStr (s1 ++ String c s2)) t
        = SendImage.upload_file w self rp (FStr (s1 ++ s2)) t)
  /\ (forall self,
        SendVideo.issue_resource_path w self filename (FStr (s1 ++ String c s2)) ch t
        = SendVideo.issue_resource_path w self filename (FStr (s1 ++ s2)) ch t)
  /\ (forall self decoded,
        Base64.b64decode (FStr (s1 ++ s2)) = Ok decoded ->
        snd (SendImage.issue_resource_path w self filename (FStr (s1 ++ String c s2)) ch t)
        = t ++ [image_issue_request self filename (s1 ++ String c s2) (py_len decoded) ch]).
Proof.
  intros Hskip Hascii. pose proof (b64decode_skip s1 s2 c Hskip Hascii) as Hd.
  assert (Hu : uploader_file_data (FStr (s1 ++ String c s2))
               = uploader_file_data (FStr (s1 ++ s2))) by exact Hd.
  split; [exact Hu |].
  split.
  { intros self. unfold SendVideo.upload_file, SendVideo.VideoUploader_init.
    now rewrite Hu. }
  split.
  { intros self. unfold SendImage.upload_file, SendImage.ImageUploader_init.
    now rewrite Hu. }
  split.
  { intros self. unfold SendVideo.issue_resource_path, SendVideo.issue_data.
    now rewrite Hd. }
  intros self decoded Hdec.
  rewrite (image_issue_run w self filename (FStr (s1 ++ String c s2)) ch decoded t).
  - reflexivity.
  - cbn [base64_text]. now rewrite Hd.
Qed.

(** X15 on [QUJD] with a line feed in the middle. *)
Lemma X15_base64_text_layout_witness :
  uploader_file_data (FStr ("QU" ++ String "010" "JD")) = uploader_file_data (FStr ("QU" ++ "JD"))
  /\ snd (SendImage.issue_resource_path Mock.accepting Mock.image_api "image.png"
            (FStr ("QU" ++ String "010" "JD")) 307464837 [])
     = [] ++ [image_issue_request Mock.image_api "image.png" ("QU" ++ String "010" "JD")
                (py_len [x41; x42; x43]) 307464837].
Proof.
  destruct (X15_base64_text_layout Mock.accepting "/abc" "image.png" 307464837
              "QU" "JD" "010" [] eq_refl eq_refl) as (Hu & _ & _ & _ & Hi).
  split; [exact Hu |].
  apply (Hi Mock.image_api [x41; x42; x43]). reflexivity.
Defined.

(** X16. Text with a non-ASCII character is rejected with [ValueError] before
    any request, by [upload_file] and by [issue_resource_path], for both media
    kinds. *)
Theorem X16_non_ascii_text_rejected (w : world) (rp filename : string) (ch : Z)
    (s : string) (t : list request) :
  forallb (fun c => (to_N c <? 128)%N) (encode_utf8 s) = false ->
  (forall self, SendVideo.upload_file w self rp (FStr s) t = (Raise ValueError, t))
  /\ (forall self, SendImage.upload_file w self rp (FStr s) t = (Raise ValueError, t))
  /\ (forall self,
        SendVideo.issue_resource_path w self filename (FStr s) ch t = (Raise ValueError, t))
  /\ (forall self,
        SendImage.issue_resource_path w self filename (FStr s) ch t = (Raise ValueError, t)).
Proof.
  intros Hs.
  assert (Hd : Base64.b64decode (FStr s) = Raise ValueError).
  { unfold Base64.b64decode, Base64.encode_ascii.
    change (list_byte_of_string s) with (encode_utf8 s). now rewrite Hs. }
  repeat split; intros self.
  - unfold SendVideo.upload_file, SendVideo.VideoUploader_init, uploader_file_data,
      bind, lift. now rewrite Hd.
  - unfold SendImage.upload_file, SendImage.ImageUploader_init, uploader_file_data,
      bind, lift. now rewrite Hd.
  - now apply video_issue_raise.
  - now apply image_issue_raise.
Qed.

(** X16 on the two UTF-8 bytes of an accented letter. *)
Lemma X16_non_ascii_text_rejected_witness :
  SendImage.upload_file Mock.accepting Mock.image_api "/abc"
    (FStr (String "195" (String "169" EmptyString))) []
  = (Raise ValueError, []).
Proof.
  destruct (X16_non_ascii_text_rejected Mock.accepting "/abc" "image.png" 307464837
              (String "195" (String "169" EmptyString)) [] eq_refl) as (_ & H & _).
  apply (H Mock.image_api).
Defined.

Lemma b2a_base64_length (p : bytes) :
  py_len (Base64.b2a_base64 p) = 4 * ((py_len p + 2) / 3).
Proof.
  unfold py_len.
  induction p as [| a | a b | a b c rest IH] using Base64Facts.list_ind3.
  - reflexivity.
  - reflexivity.
  - reflexivity.
  - change (Base64.b2a_base64 (a :: b :: c :: rest))
      with (Base64.b2a (Base64Check.s1 a) :: Base64.b2a (Base64Check.s2 a b)
            :: Base64.b2a (Base64Check.s3 b c) :: Base64.b2a (Base64Check.s4 c)
            :: Base64.b2a_base64 rest).
    cbn [List.length]. 
    replace (Z.of_nat (S (S (S (S (List.length (Base64.b2a_base64 rest))))))) 
      with (Z.of_nat (List.length (Base64.b2a_base64 rest)) + 4) by lia.
    rewrite IH.
    replace (Z.of_nat (S (S (S (List.length rest)))) + 2)
      with ((Z.of_nat (List.length rest) + 2) + 1 * 3) by lia.
    rewrite Z.div_add by lia. lia.
Qed.

(** X17. The size of what the image path issuance sends: for a payload of n
    bytes, [fileData] is an ASCII text of 4 * ceil(n / 3) characters, while
    [filesize] is n. *)
Theorem X17_file_data_size (w : world) (filename : string) (p : bytes) (ch : Z)
    (t : list request) (self : SendImage.WorksImageAPI) :
  exists req s,
    snd (SendImage.issue_resource_path w self filename (FBytes p) ch t) = t ++ [req]
    /\ request_field "fileData" req = Some (JStr s)
    /\ py_len (encode_utf8 s) = 4 * ((py_len p + 2) / 3)
    /\ forallb (fun c => (to_N c <? 128)%N) (encode_utf8 s) = true
    /\ request_field "filesize" req = Some (JInt (py_len p)).
Proof.
  exists (image_issue_request self filename (base64_text (FBytes p)) (py_len p) ch),
         (base64_text (FBytes p)).
  rewrite (image_issue_run w self filename (FBytes p) ch p t)
    by apply b64decode_b64encode_str.
  split; [reflexivity |]. split; [reflexivity |].
  cbn [base64_text]. unfold Base64.decode_utf8, encode_utf8, Base64.b64encode.
  rewrite list_byte_of_string_of_list_byte.
  split; [apply b2a_base64_length |].
  split; [apply Base64Facts.b2a_base64_ascii | reflexivity].
Qed.

(** ** Credentials and browser headers *)

(** X18. The cookies of [cookies.json] go out with the path issuance and with
    the upload, as loaded; the preflight between them is sent without
    cookies. The nine browser headers of [_get_common_headers] are all sent,
    unchanged, with both POSTs: nothing the two methods add overrides one of
    them. Video, and image with nonzero dimensions. *)
Theorem X18_credentials_and_common_headers (w : world) (file : bytes) (rp : string)
    (t : list request) :
  local_file w = Some file ->
  file <> [] ->
  List.length _get_common_headers = 9%nat
  /\ (forall st ri status body,
        issue_reply w (video_main_issue_request w file) = Response st (Some ri) ->
        py_ne_200 (ri_code ri) = false ->
        ri_resourcePath ri = Some rp ->
        options_reply w (preflight_request (SendVideo.storage_url (video_main_api w)) rp)
        = Response status body ->
        exists issue pre up,
          snd (SendVideo.main w t) = t ++ [issue; pre; up]
          /\ request_cookies issue = Some (cookies_json w)
          /\ request_cookies pre = None
          /\ request_cookies up = Some (cookies_json w)
          /\ carries_headers _get_common_headers issue = true
          /\ carries_headers _get_common_headers up = true)
  /\ (forall st ri status body width height,
        issue_reply w (image_main_issue_request w file) = Response st (Some ri) ->
        py_ne_200 (ri_code ri) = false ->
        ri_resourcePath ri = Some rp ->
        options_reply w (preflight_request (SendImage.storage_url (image_main_api w)) rp)
        = Response status body ->
        pil_open w file = Some (width, height) -> width <> 0 -> height <> 0 ->
        exists issue pre up,
          snd (SendImage.main w t) = t ++ [issue; pre; up]
          /\ request_cookies issue = Some (cookies_json w)
          /\ request_cookies pre = None
          /\ request_cookies up = Some (cookies_json w)
          /\ carries_headers _get_common_headers issue = true
          /\ carries_headers _get_common_headers up = true).
Proof.
  intros Hf Hne. split; [reflexivity |]. split.
  - intros st ri status body Hissue Hcode Hrp Hopt.
    destruct (get_mp4_duration_total file) as (q & Hq).
    exists (video_main_issue_request w file),
           (preflight_request (SendVideo.storage_url (video_main_api w)) rp),
           (video_upload_request w (video_main_api w) rp file q).
    rewrite (video_main_unfold w file t Hf Hne), Hissue. cbn [issue_result].
    rewrite Hcode, Hrp, video_after_preflight, Hopt.
    rewrite (video_upload_run w _ rp (FBytes file) file q _ eq_refl Hq Hne).
    cbn [main_after_upload snd]. rewrite <- !app_assoc. repeat split.
  - intros st ri status body width height Hissue Hcode Hrp Hopt Hpil Hw Hh.
    exists (image_main_issue_request w file),
           (preflight_request (SendImage.storage_url (image_main_api w)) rp),
           (image_upload_request w (image_main_api w) rp file width height).
    rewrite (image_main_unfold w file t Hf Hne), Hissue. cbn [issue_result].
    rewrite Hcode, Hrp, image_after_preflight, Hopt.
    rewrite (image_upload_run w _ rp (FBytes file) file width height _ eq_refl Hne Hpil Hw Hh).
    cbn [main_after_upload snd]. rewrite <- !app_assoc. repeat split.
Qed.

(** X18 on the accepting server. *)
Lemma X18_credentials_and_common_headers_witness :
  exists issue pre up,
    snd (SendImage.main Mock.accepting []) = [] ++ [issue; pre; up]
    /\ request_cookies issue = Some (cookies_json Mock.accepting)
    /\ request_cookies pre = None
    /\ request_cookies up = Some (cookies_json Mock.accepting)
    /\ carries_headers _get_common_headers issue = true
    /\ carries_headers _get_common_headers up = true.
Proof.
  destruct (X18_credentials_and_common_headers Mock.accepting [x41] "/abc" [] eq_refl)
    as (_ & _ & H); [discriminate |].
  apply (H 200 {| ri_code := Some (JInt 200); ri_resourcePath := Some "/abc"%string |}
           200 None 10 10); try reflexivity; lia.
Defined.
